(** * The Perplexity dashboard core: API client and audit store

    A shallow embedding of [models/api_models.py],
    [services/perplexity_service.py] and [services/data_service.py], and
    the properties their specification states about them.

    Conventions of the embedding.
    - A Python object that comes out of a JSON document, or that the
      program stores without looking at its type, is a [Py.value].  A
      field the program itself fills with a [str] or an [int] has the
      Rocq type of its annotation.
    - A Python [int] is a [Z], a [float] a binary64 [float]; [a / b] on
      two [int]s is the correctly rounded quotient, as in CPython.
    - An exception is a [Py.Raise] in the [Py.result] monad; only the
      exceptions the embedded code can meet are listed.
    - [uuid.uuid4()] and [datetime.now()] are inputs from outside: the
      value a call obtains is an argument of the embedded method.
    - A method of [DataService] is a function of the directory [data/],
      in the state monad [DataService.Store]; a file is held by the
      document [json.load] reads from it.  [JsonFile] has the two file
      primitives on the text of the files.
    - Messages shown to the user through [st.error] are not modelled. *)

From Stdlib Require Import ZArith Ascii DecimalString.
From Stdlib Require Import Floats.PrimFloat Floats.SpecFloat Floats.FloatOps.
From stdpp Require Import base option list sorting gmap strings.

Set Warnings "-inexact-float,-register-all".

(** ** Python values *)

Module Py.

(** What [json.load] and [response.json()] return: [None], [bool], [int],
    [float], [str], [list], and [dict] with [str] keys.  A [dict] keeps its
    keys in insertion order, hence the association list. *)
Inductive value : Type :=
  | VNone
  | VBool (b : bool)
  | VInt (n : Z)
  | VFloat (x : float)
  | VStr (s : string)
  | VList (xs : list value)
  | VDict (kvs : list (string * value)).

Inductive exn : Type :=
  | AttributeError
  | TypeError.

Inductive result (A : Type) : Type :=
  | Ok (a : A)
  | Raise (e : exn).
Arguments Ok {A} a.
Arguments Raise {A} e.

#[global] Instance result_ret : MRet result := @Ok.
#[global] Instance result_bind : MBind result := λ A B f m,
  match m with
  | Ok a => f a
  | Raise e => Raise e
  end.

(** [d[k]] read as an option, and [d[k] = v]. *)
Fixpoint dict_lookup {V : Type} (k : string) (d : list (string * V)) : option V :=
  match d with
  | [] => None
  | (k', v) :: d' => if decide (k' = k) then Some v else dict_lookup k d'
  end.

Fixpoint dict_set {V : Type} (k : string) (v : V) (d : list (string * V))
  : list (string * V) :=
  match d with
  | [] => [(k, v)]
  | (k', v') :: d' =>
      if decide (k' = k) then (k, v) :: d' else (k', v') :: dict_set k v d'
  end.

(** [v is None] *)
Definition is_none (v : value) : bool :=
  match v with
  | VNone => true
  | _ => false
  end.

(** [bool(v)], the test of [if v] *)
Definition truthy (v : value) : bool :=
  match v with
  | VNone => false
  | VBool b => b
  | VInt n => negb (n =? 0)%Z
  | VFloat x => negb (x =? 0)%float
  | VStr s => negb (bool_decide (s = ""))
  | VList xs => negb (bool_decide (xs = []))
  | VDict kvs => negb (bool_decide (kvs = []))
  end.

(** [obj.get(k, default)]: only a [dict] has the method. *)
Definition get (obj : value) (k : string) (dflt : value) : result value :=
  match obj with
  | VDict kvs => Ok (default dflt (dict_lookup k kvs))
  | _ => Raise AttributeError
  end.

(** The items [for x in obj] runs through: the elements of a list, the
    keys of a dict, the characters of a string. *)
Definition iter (obj : value) : result (list value) :=
  match obj with
  | VList xs => Ok xs
  | VDict kvs => Ok ((λ kv, VStr kv.1) <$> kvs)
  | VStr s => Ok ((λ c, VStr (String c EmptyString)) <$> String.list_ascii_of_string s)
  | _ => Raise TypeError
  end.

(** *** Numbers *)

(** [float(n)]: the binary64 nearest to [n], ties to even. *)
Definition float_of_int (n : Z) : float :=
  SF2Prim (binary_normalize prec emax n 0 false).

Definition int_to_spec (n : Z) : spec_float :=
  match n with
  | Z0 => S754_zero false
  | Zpos p => S754_finite false p 0
  | Zneg p => S754_finite true p 0
  end.

(** [a / b] on two [int]s: the binary64 nearest to the exact quotient.
    CPython raises [OverflowError] where that is beyond the binary64
    range; here the result is an infinity.  [b] is not zero at the uses. *)
Definition int_truediv (a b : Z) : float :=
  SF2Prim (SFdiv prec emax (int_to_spec a) (int_to_spec b)).

(** The numbers among the values; a [bool] counts as 0 or 1. *)
Inductive number : Type :=
  | NInt (n : Z)
  | NFloat (x : float).

Definition as_number (v : value) : option number :=
  match v with
  | VBool b => Some (NInt (if b then 1 else 0))
  | VInt n => Some (NInt n)
  | VFloat x => Some (NFloat x)
  | _ => None
  end.

Definition of_number (n : number) : value :=
  match n with
  | NInt n => VInt n
  | NFloat x => VFloat x
  end.

Definition add (a b : number) : number :=
  match a, b with
  | NInt x, NInt y => NInt (x + y)
  | NInt x, NFloat y => NFloat (float_of_int x + y)
  | NFloat x, NInt y => NFloat (x + float_of_int y)
  | NFloat x, NFloat y => NFloat (x + y)
  end.

Definition truediv (a b : number) : float :=
  match a, b with
  | NInt x, NInt y => int_truediv x y
  | NInt x, NFloat y => float_of_int x / y
  | NFloat x, NInt y => x / float_of_int y
  | NFloat x, NFloat y => x / y
  end.

(** [sum(vs)]: additions from 0, left to right; adding anything but a
    number to a number raises [TypeError].  (On floats CPython from 3.12
    on compensates the rounding of the running total; on [int]s, which is
    what token counts are, there is no rounding.) *)
Fixpoint sum_from (acc : number) (vs : list value) : result number :=
  match vs with
  | [] => Ok acc
  | v :: vs' =>
      match as_number v with
      | Some n => sum_from (add acc n) vs'
      | None => Raise TypeError
      end
  end.

Definition sum (vs : list value) : result number := sum_from (NInt 0) vs.

(** [obj.name] on an object whose attributes are the keys of a dict, as
    a section of [st.secrets] is. *)
Definition getattr (obj : value) (name : string) : result value :=
  match obj with
  | VDict kvs =>
      match dict_lookup name kvs with
      | Some v => Ok v
      | None => Raise AttributeError
      end
  | _ => Raise AttributeError
  end.

(** [s == v] for a [str] [s]: a [str] is equal to a [str] only. *)
Definition eq_str (s : string) (v : value) : bool :=
  match v with
  | VStr s' => bool_decide (s = s')
  | _ => false
  end.

(** [xs[:limit]]: a negative [limit] counts from the end. *)
Definition slice_to {A : Type} (limit : Z) (xs : list A) : list A :=
  if (0 <=? limit)%Z
  then take (Z.to_nat limit) xs
  else take (length xs - Z.to_nat (- limit)) xs.

(** [xs.sort(key=key, reverse=True)].  The sort is stable, also when
    reversed: items of equal key keep their order.  That and the order of
    the keys determine the sorted list; insertion from the right computes
    it. *)
Fixpoint insert_desc {A : Type} (key : A → Z) (x : A) (sorted : list A)
  : list A :=
  match sorted with
  | [] => [x]
  | y :: sorted' =>
      if (key y <=? key x)%Z then x :: y :: sorted'
      else y :: insert_desc key x sorted'
  end.

Definition sort_desc {A : Type} (key : A → Z) (xs : list A) : list A :=
  foldr (insert_desc key) [] xs.

End Py.

Abbreviation value := Py.value.
Abbreviation VNone := Py.VNone.
Abbreviation VBool := Py.VBool.
Abbreviation VInt := Py.VInt.
Abbreviation VFloat := Py.VFloat.
Abbreviation VStr := Py.VStr.
Abbreviation VList := Py.VList.
Abbreviation VDict := Py.VDict.
Abbreviation Ok := Py.Ok.
Abbreviation Raise := Py.Raise.

(** An instant of [datetime], as a count of microseconds on the local
    time line; [isoformat] and [fromisoformat] are inverse and the stored
    text is identified with the instant it denotes. *)
Definition datetime : Type := Z.

(** [timedelta(days=n)] *)
Definition timedelta_days (n : Z) : Z := (n * 86400000000)%Z.

(** ** models/api_models.py *)

Module PerplexityMessage.
Record t : Type := mk { role : value; content : value }.

(** [asdict(msg)] *)
Definition asdict (msg : t) : value :=
  VDict [("role", role msg); ("content", content msg)].
End PerplexityMessage.

Module PerplexityRequest.
Record t : Type := mk {
  model : string;
  messages : list PerplexityMessage.t;
  max_tokens : value;
  temperature : value;
  top_p : value;
  presence_penalty : value;
  frequency_penalty : value;
  stream : value;
  return_citations : value;
  return_related_questions : value;
  return_images : value
}.

(** [asdict(self).items()]: every field, in the order of declaration. *)
Definition asdict (self : t) : list (string * value) :=
  [ ("model", VStr (model self));
    ("messages", VList (PerplexityMessage.asdict <$> messages self));
    ("max_tokens", max_tokens self);
    ("temperature", temperature self);
    ("top_p", top_p self);
    ("presence_penalty", presence_penalty self);
    ("frequency_penalty", frequency_penalty self);
    ("stream", stream self);
    ("return_citations", return_citations self);
    ("return_related_questions", return_related_questions self);
    ("return_images", return_images self) ].

(** The loop of [to_dict] over the items, from the [result] built so far. *)
Definition to_dict_step (self : t) (result : list (string * value))
    (item : string * value) : list (string * value) :=
  let '(key, v) := item in
  if Py.is_none v then result
  else if decide (key = "messages")
    then Py.dict_set key (VList (PerplexityMessage.asdict <$> messages self)) result
    else Py.dict_set key v result.

Definition to_dict (self : t) : list (string * value) :=
  foldl (to_dict_step self) [] (asdict self).
End PerplexityRequest.

Module PerplexityUsage.
Record t : Type := mk {
  prompt_tokens : value;
  completion_tokens : value;
  total_tokens : value
}.
End PerplexityUsage.

Module PerplexityChoice.
Record t : Type := mk {
  index : value;
  finish_reason : value;
  message : PerplexityMessage.t
}.
End PerplexityChoice.

Module PerplexitySearchResult.
Record t : Type := mk { title : value; url : value; snippet : value }.
End PerplexitySearchResult.

(** The three optional fields default to [None]: [search_results] is an
    option, the two lists the parser copies unread are values. *)
Module PerplexityResponse.
Record t : Type := mk {
  id : value;
  object : value;
  created : value;
  model : value;
  choices : list PerplexityChoice.t;
  usage : PerplexityUsage.t;
  search_results : option (list PerplexitySearchResult.t);
  related_questions : value;
  citations : value
}.
End PerplexityResponse.

(** An entry of the request log.  The record stands for the dataclass and
    for the dict [to_dict] makes of it, which has the same keys. *)
Module ApiRequestLog.
Record t : Type := mk {
  id : string;
  timestamp : datetime;
  model : string;
  prompt : value;
  request_json : string;
  response_json : option string;
  response_id : value;
  response_content : value;
  prompt_tokens : value;
  completion_tokens : value;
  total_tokens : value;
  status : string;
  error_message : option string;
  duration_ms : option Z;
  search_results : list PerplexitySearchResult.t
}.
End ApiRequestLog.

(** ** services/perplexity_service.py *)

Module PerplexityService.

(** The body of the loop over [choices]. *)
Definition parse_choice (choice_data : value) : Py.result PerplexityChoice.t :=
  message_data ← Py.get choice_data "message" (VDict []);
  role ← Py.get message_data "role" (VStr "");
  content ← Py.get message_data "content" (VStr "");
  let message := PerplexityMessage.mk role content in
  index ← Py.get choice_data "index" (VInt 0);
  finish_reason ← Py.get choice_data "finish_reason" (VStr "");
  mret (PerplexityChoice.mk index finish_reason message).

(** The body of the loop over [search_results]. *)
Definition parse_search_result (sr_data : value)
  : Py.result PerplexitySearchResult.t :=
  title ← Py.get sr_data "title" (VStr "");
  url ← Py.get sr_data "url" (VStr "");
  snippet ← Py.get sr_data "snippet" (VStr "");
  mret (PerplexitySearchResult.mk title url snippet).

(** The [except] clause reports and raises again, so an exception of the
    body is the exception of the call. *)
Definition _parse_response (response_data : value)
  : Py.result PerplexityResponse.t :=
  usage_data ← Py.get response_data "usage" (VDict []);
  prompt_tokens ← Py.get usage_data "prompt_tokens" (VInt 0);
  completion_tokens ← Py.get usage_data "completion_tokens" (VInt 0);
  total_tokens ← Py.get usage_data "total_tokens" (VInt 0);
  let usage := PerplexityUsage.mk prompt_tokens completion_tokens total_tokens in
  choices_data ← Py.get response_data "choices" (VList []);
  choice_items ← Py.iter choices_data;
  choices ← mapM parse_choice choice_items;
  search_results ←
    match response_data with
    | VDict kvs =>
        match Py.dict_lookup "search_results" kvs with
        | Some found =>
            if Py.truthy found
            then sr_items ← Py.iter found; mapM parse_search_result sr_items
            else mret []
        | None => mret []
        end
    | _ => Raise Py.TypeError
    end;
  id ← Py.get response_data "id" (VStr "");
  object ← Py.get response_data "object" (VStr "");
  created ← Py.get response_data "created" (VInt 0);
  model ← Py.get response_data "model" (VStr "");
  related_questions ← Py.get response_data "related_questions" VNone;
  citations ← Py.get response_data "citations" VNone;
  mret (PerplexityResponse.mk id object created model choices usage
          (if bool_decide (search_results = []) then None else Some search_results)
          related_questions citations).

(** What [_get_api_key] and [_get_base_url] read from outside the
    program. *)
Record Environment : Type := mkEnvironment {
  (** [hasattr(st, 'secrets')] *)
  has_secrets : bool;
  (** [st.secrets], by its sections; [None] where reading it raises *)
  secrets : option (gmap string value);
  (** [os.getenv] *)
  getenv : string → option string;
  (** [data/config.json]: [None] where there is no such file, else the
      document [json.load] reads, [None] where that raises *)
  config_json : option (option value)
}.

(** [hasattr(st, 'secrets') and name in st.secrets], and the section
    found: the outer [None] is an exception. *)
Definition secrets_section (env : Environment) (name : string)
  : option (option value) :=
  if has_secrets env
  then sections ← secrets env; Some (sections !! name)
  else Some None.

(** An exception anywhere gives the empty key, like a missing config
    file. *)
Definition _get_api_key (env : Environment) : value :=
  let attempt : option value :=
    section ← secrets_section env "perplexity";
    match section with
    | Some perplexity =>
        match Py.getattr perplexity "api_key" with
        | Ok api_key => Some api_key
        | Raise _ => None
        end
    | None =>
        let from_config : option value :=
          match config_json env with
          | Some document =>
              config ← document;
              match Py.get config "api_key" (VStr "") with
              | Ok api_key => Some api_key
              | Raise _ => None
              end
          | None => Some (VStr "")
          end in
        match getenv env "PERPLEXITY_API_KEY" with
        | Some api_key =>
            if bool_decide (api_key = "") then from_config
            else Some (VStr api_key)
        | None => from_config
        end
    end in
  default (VStr "") attempt.

Definition _get_base_url (env : Environment) : value :=
  let attempt : option value :=
    section ← secrets_section env "perplexity";
    match section with
    | Some perplexity =>
        match Py.get perplexity "base_url" (VStr "https://api.perplexity.ai") with
        | Ok base_url => Some base_url
        | Raise _ => None
        end
    | None => Some (VStr "https://api.perplexity.ai")
    end in
  default (VStr "https://api.perplexity.ai") attempt.

Definition get_available_models : list string :=
  ["sonar"; "sonar-pro"; "sonar-reasoning"; "sonar-reasoning-pro"].

(** What [self.session.post] does: the server answers with a status, a
    body text and, where the text is JSON, the document [response.json()]
    reads from it; or the call raises. *)
Inductive post_outcome : Type :=
  | Answer (status_code : Z) (text : string) (json : option value)
  | Timeout_raised
  | RequestException_raised
  | Exception_raised.

Section network.

Variable session_post : string → list (string * value) → post_outcome.
Variable base_url : string.

(** [None] is what every [except] clause and the non-200 branch return. *)
Definition send_request (request : PerplexityRequest.t)
  : option PerplexityResponse.t :=
  let url := base_url +:+ "/chat/completions" in
  let payload := PerplexityRequest.to_dict request in
  match session_post url payload with
  | Answer status_code text json =>
      if decide (status_code = 200%Z) then
        match json with
        | Some response_data =>
            match _parse_response response_data with
            | Ok response => Some response
            | Raise _ => None
            end
        | None => None
        end
      else None
  | Timeout_raised => None
  | RequestException_raised => None
  | Exception_raised => None
  end.

(** The request [send_chat_request] builds from its arguments;
    [kwargs] is the dict of the keyword arguments of the call. *)
Definition chat_request (prompt : string) (model : string)
    (kwargs : gmap string value) : PerplexityRequest.t :=
  {| PerplexityRequest.model := model;
     PerplexityRequest.messages := [PerplexityMessage.mk (VStr "user") (VStr prompt)];
     PerplexityRequest.max_tokens := default (VInt 1000) (kwargs !! "max_tokens");
     PerplexityRequest.temperature := default (VFloat 0.7) (kwargs !! "temperature");
     PerplexityRequest.top_p := default (VFloat 1.0) (kwargs !! "top_p");
     PerplexityRequest.presence_penalty :=
       default (VFloat 0.0) (kwargs !! "presence_penalty");
     PerplexityRequest.frequency_penalty :=
       default (VFloat 0.0) (kwargs !! "frequency_penalty");
     PerplexityRequest.stream := VBool false;
     PerplexityRequest.return_citations :=
       default (VBool true) (kwargs !! "return_citations");
     PerplexityRequest.return_related_questions :=
       default (VBool true) (kwargs !! "return_related_questions");
     PerplexityRequest.return_images :=
       default (VBool false) (kwargs !! "return_images") |}.

Definition send_chat_request (prompt : string) (model : string)
    (kwargs : gmap string value) : option PerplexityResponse.t :=
  let request := chat_request prompt model kwargs in
  send_request request.

(** [model] is left to its default, "sonar-pro"; [send_chat_request]
    raises nothing for the [except] clause to catch. *)
Definition test_connection : bool :=
  let response :=
    send_chat_request
      "Hello, this is a test message. Please respond with a simple confirmation."
      "sonar-pro" {["max_tokens" := VInt 50]} in
  bool_decide (response ≠ None).

End network.

End PerplexityService.

(** ** services/data_service.py *)

(** A saved prompt: the dict [save_prompt] builds.  [usage_count] is
    [None] where a stored object lacks the key, the case
    [prompt.get('usage_count', 0)] provides for. *)
Module SavedPrompt.
Record t : Type := mk {
  id : string;
  name : string;
  description : string;
  content : string;
  category : string;
  created_at : datetime;
  last_used : option datetime;
  usage_count : option Z
}.
End SavedPrompt.

(** The dict [get_usage_statistics] returns. *)
Module UsageStatistics.
Record t : Type := mk {
  total_requests : Z;
  completed_requests : Z;
  total_tokens : value;
  success_rate : value;
  model_usage : gmap string Z;
  recent_requests : Z;
  avg_tokens_per_request : value
}.
End UsageStatistics.

Module DataService.

(** The files of [data/], each with the type of the document it holds. *)
Inductive path : Type → Type :=
  | requests_file : path (list ApiRequestLog.t)
  | prompts_file : path (list SavedPrompt.t)
  | config_file : path (list (string * value)).

(** The directory: for each file the document [json.load] reads from it,
    [None] where the file is missing or [json.load] raises. *)
Record Disk : Type := mkDisk {
  requests_json : option (list ApiRequestLog.t);
  prompts_json : option (list SavedPrompt.t);
  config_json : option (list (string * value))
}.

Definition read {A : Type} (file_path : path A) (disk : Disk) : option A :=
  match file_path in path A return option A with
  | requests_file => requests_json disk
  | prompts_file => prompts_json disk
  | config_file => config_json disk
  end.

Definition write {A : Type} (file_path : path A) : A → Disk → Disk :=
  match file_path in path A return A → Disk → Disk with
  | requests_file => λ data disk,
      mkDisk (Some data) (prompts_json disk) (config_json disk)
  | prompts_file => λ data disk,
      mkDisk (requests_json disk) (Some data) (config_json disk)
  | config_file => λ data disk,
      mkDisk (requests_json disk) (prompts_json disk) (Some data)
  end.

(** [[] if file_path != self.config_file else {}] *)
Definition empty {A : Type} (file_path : path A) : A :=
  match file_path in path A return A with
  | requests_file => []
  | prompts_file => []
  | config_file => []
  end.

(** A method of the service reads and writes the directory. *)
Definition Store (A : Type) : Type := Disk → A * Disk.

#[global] Instance Store_ret : MRet Store := λ A a disk, (a, disk).
#[global] Instance Store_bind : MBind Store := λ A B f m disk,
  let '(a, disk') := m disk in f a disk'.

Definition _load_json {A : Type} (file_path : path A) : Store A :=
  λ disk, (default (empty file_path) (read file_path disk), disk).

Definition _save_json {A : Type} (file_path : path A) (data : A) : Store unit :=
  λ disk, (tt, write file_path data disk).


(** *** Request log *)






(** The first entry with the id, as the loop returns it. *)
Definition get_request_by_id (request_id : string)
  : Store (option ApiRequestLog.t) :=
  requests ← _load_json requests_file;
  mret (snd <$> list_find (λ request, ApiRequestLog.id request = request_id) requests).

(** *** Statistics *)

(** The loop that fills [model_usage]. *)
Definition count_model (model_usage : gmap string Z) (request : ApiRequestLog.t)
  : gmap string Z :=
  let model := ApiRequestLog.model request in
  <[model := (default 0 (model_usage !! model) + 1)%Z]> model_usage.

Definition get_usage_statistics (now : datetime)
  : Store (Py.result UsageStatistics.t) :=
  requests ← _load_json requests_file;
  mret (
    let total_requests := Z.of_nat (length requests) in
    let completed_requests :=
      Z.of_nat (length (filter (λ r, ApiRequestLog.status r = "completed") requests)) in
    total_tokens ← Py.sum
      (ApiRequestLog.total_tokens <$>
         filter (λ r, Py.truthy (ApiRequestLog.total_tokens r)) requests);
    let success_rate :=
      if (0 <? total_requests)%Z
      then VFloat (Py.int_truediv completed_requests total_requests
                   * Py.float_of_int 100)
      else VInt 0 in
    let model_usage := foldl count_model ∅ requests in
    let recent_date := (now - timedelta_days 7)%Z in
    let recent_requests :=
      filter (λ r, (recent_date ≤ ApiRequestLog.timestamp r)%Z) requests in
    mret {|
      UsageStatistics.total_requests := total_requests;
      UsageStatistics.completed_requests := completed_requests;
      UsageStatistics.total_tokens := Py.of_number total_tokens;
      UsageStatistics.success_rate := success_rate;
      UsageStatistics.model_usage := model_usage;
      UsageStatistics.recent_requests := Z.of_nat (length recent_requests);
      UsageStatistics.avg_tokens_per_request :=
        if (0 <? completed_requests)%Z
        then VFloat (Py.truediv total_tokens (Py.NInt completed_requests))
        else VInt 0
    |}).

(** *** Prompts *)





(** *** Queries *)

(** The sort key is the [timestamp] text; in ISO format the texts are
    ordered as the instants are. *)
Definition get_recent_requests (limit : Z) : Store (list ApiRequestLog.t) :=
  requests ← _load_json requests_file;
  let requests := Py.sort_desc ApiRequestLog.timestamp requests in
  mret (Py.slice_to limit requests).

Definition get_requests_by_model (model : string) (limit : Z)
  : Store (list ApiRequestLog.t) :=
  requests ← _load_json requests_file;
  let filtered := filter (λ r, ApiRequestLog.model r = model) requests in
  let filtered := Py.sort_desc ApiRequestLog.timestamp filtered in
  mret (Py.slice_to limit filtered).


End DataService.

(** The saved responses.  The three methods on them read and write one
    file, [saved_responses.json], and nothing else of the directory: they
    are functions of that file, held like the files of [DataService.Disk]
    by the document [json.load] reads from it. *)
Module SavedResponse.
Record t : Type := mk {
  id : string;
  request_id : string;
  prompt_name : string;
  saved_at : datetime;
  response_data : value
}.
End SavedResponse.

Module SavedResponses.

Definition File : Type := option (list SavedResponse.t).

Definition _load_json (responses_file : File) : list SavedResponse.t :=
  default [] responses_file.

Definition _save_json (data : list SavedResponse.t) : File := Some data.


Definition get_saved_responses (responses_file : File)
  : list SavedResponse.t :=
  let responses := _load_json responses_file in
  Py.sort_desc SavedResponse.saved_at responses.


End SavedResponses.

(** ** The JSON files

    [DataService.Disk] above holds each file by the document [json.load]
    reads from it.  Below are [_load_json] and [_save_json] once more, one
    level down, on the text of the files: the encoder and the decoder of
    the [json] library are parameters. *)

Module JsonFile.

Section codec.

(** [json.dump(data, f, indent=2, ensure_ascii=False)], by the text it
    writes, and [json.load(f)], by the document it reads, [None] where it
    raises.  Every [value] is a document [json.dump] accepts. *)
Variable dump : value → string.
Variable load : string → option value.

Definition config_file : string := "data/config.json".

(** [[] if file_path != self.config_file else {}] *)
Definition empty (file_path : string) : value :=
  if decide (file_path ≠ config_file) then VList [] else VDict [].

(** The files are the texts they hold; [open] raises on a path that has
    none, and any exception of the body gives the empty document. *)
Definition _load_json (file_path : string) (files : gmap string string) : value :=
  match files !! file_path with
  | Some text => default (empty file_path) (load text)
  | None => empty file_path
  end.

Definition _save_json (file_path : string) (data : value)
    (files : gmap string string) : gmap string string :=
  <[file_path := dump data]> files.

Definition requests_file : string := "data/api_requests.json".
Definition prompts_file : string := "data/saved_prompts.json".
Definition responses_file : string := "data/saved_responses.json".

(** The config [_init_files] writes where there is none. *)
Definition default_config : value :=
  VDict [ ("api_key", VStr ""); ("default_model", VStr "sonar-pro");
          ("default_max_tokens", VInt 1000);
          ("default_temperature", VFloat 0.7) ].

(** [if not file.exists(): self._save_json(file, data)] *)
Definition init_file (file_path : string) (data : value)
    (files : gmap string string) : gmap string string :=
  if bool_decide (is_Some (files !! file_path)) then files
  else _save_json file_path data files.

(** [default_prompts] is the list [self._get_default_prompts()] returns. *)
Definition _init_files (default_prompts : value) (files : gmap string string)
  : gmap string string :=
  let files := init_file requests_file (VList []) files in
  let files := init_file prompts_file default_prompts files in
  let files := init_file responses_file (VList []) files in
  init_file config_file default_config files.

End codec.

(** *** A reference codec

    A writer and a reader of the compact form of JSON, for the documents
    without floats. *)

Definition quote : Ascii.ascii := Ascii.ascii_of_nat 34.
Definition backslash : Ascii.ascii := Ascii.ascii_of_nat 92.

Fixpoint write_chars (s : string) : string :=
  match s with
  | EmptyString => EmptyString
  | String c s' =>
      if decide (c = quote ∨ c = backslash)
      then String backslash (String c (write_chars s'))
      else String c (write_chars s')
  end.

Definition write_string (s : string) : string :=
  String quote (write_chars s) +:+ String quote EmptyString.

Definition join (sep : string) (parts : list string) : string :=
  match parts with
  | [] => ""
  | part :: parts' => foldl (λ acc p, acc +:+ sep +:+ p) part parts'
  end.

Fixpoint dumps (v : value) : string :=
  match v with
  | VNone => "null"
  | VBool true => "true"
  | VBool false => "false"
  | VInt n => NilZero.string_of_int (Z.to_int n)
  | VFloat _ => "NaN"
  | VStr s => write_string s
  | VList xs => "[" +:+ join "," (dumps <$> xs) +:+ "]"
  | VDict kvs =>
      "{" +:+ join "," ((λ kv, write_string kv.1 +:+ ":" +:+ dumps kv.2) <$> kvs)
      +:+ "}"
  end.

(** After the opening quote: the characters up to the closing one. *)
Fixpoint read_chars (s : string) : option (string * string) :=
  match s with
  | EmptyString => None
  | String c s' =>
      if decide (c = quote) then Some (EmptyString, s')
      else if decide (c = backslash) then
        match s' with
        | String d s'' =>
            '(chars, rest) ← read_chars s''; Some (String d chars, rest)
        | EmptyString => None
        end
      else '(chars, rest) ← read_chars s'; Some (String c chars, rest)
  end.

(** The longest prefix made of a sign and digits. *)
Fixpoint read_digits (s : string) : string * string :=
  match s with
  | String c s' =>
      if decide (c = "-"%char ∨ is_Some (Ascii.is_nat c))
      then let '(digits, rest) := read_digits s' in (String c digits, rest)
      else (EmptyString, s)
  | EmptyString => (EmptyString, EmptyString)
  end.

Fixpoint read_word (word : string) (v : value) (s : string)
  : option (value * string) :=
  match word, s with
  | EmptyString, _ => Some (v, s)
  | String a word', String b s' =>
      if decide (a = b) then read_word word' v s' else None
  | String _ _, EmptyString => None
  end.

Fixpoint read_value (fuel : nat) (s : string) {struct fuel}
  : option (value * string) :=
  match fuel, s with
  | S fuel', String c s' =>
      if decide (c = "n"%char) then read_word "null" VNone s
      else if decide (c = "t"%char) then read_word "true" (VBool true) s
      else if decide (c = "f"%char) then read_word "false" (VBool false) s
      else if decide (c = quote) then
        '(chars, rest) ← read_chars s'; Some (VStr chars, rest)
      else if decide (c = "["%char) then
        match s' with
        | String "]"%char rest => Some (VList [], rest)
        | _ => '(xs, rest) ← read_items fuel' s'; Some (VList xs, rest)
        end
      else if decide (c = "{"%char) then
        match s' with
        | String "}"%char rest => Some (VDict [], rest)
        | _ => '(kvs, rest) ← read_members fuel' s'; Some (VDict kvs, rest)
        end
      else
        let '(digits, rest) := read_digits s in
        n ← NilZero.int_of_string digits; Some (VInt (Z.of_int n), rest)
  | _, _ => None
  end
with read_items (fuel : nat) (s : string) {struct fuel}
  : option (list value * string) :=
  match fuel with
  | S fuel' =>
      '(v, rest) ← read_value fuel' s;
      match rest with
      | String c rest' =>
          if decide (c = ","%char)
          then '(vs, rest'') ← read_items fuel' rest'; Some (v :: vs, rest'')
          else if decide (c = "]"%char) then Some ([v], rest') else None
      | EmptyString => None
      end
  | 0 => None
  end
with read_members (fuel : nat) (s : string) {struct fuel}
  : option (list (string * value) * string) :=
  match fuel, s with
  | S fuel', String c s' =>
      if decide (c = quote) then
        '(key, rest) ← read_chars s';
        match rest with
        | String colon rest' =>
            if decide (colon = ":"%char) then
              '(v, rest'') ← read_value fuel' rest';
              match rest'' with
              | String d rest''' =>
                  if decide (d = ","%char)
                  then '(kvs, rest4) ← read_members fuel' rest''';
                       Some ((key, v) :: kvs, rest4)
                  else if decide (d = "}"%char)
                  then Some ([(key, v)], rest''') else None
              | EmptyString => None
              end
            else None
        | EmptyString => None
        end
      else None
  | _, _ => None
  end.

Definition loads (s : string) : option value :=
  match read_value (S (String.length s)) s with
  | Some (v, EmptyString) => Some v
  | _ => None
  end.

End JsonFile.

(** ** utils/auth.py *)

Module auth.

Section auth.

(** [hashlib.sha256(s.encode()).hexdigest()], and the two functions of
    the [json] library as in [JsonFile]. *)
Variable sha256_hexdigest : string → string.
Variable dump : value → string.
Variable load : string → option value.

(** [hasattr(st, 'secrets')], and [st.secrets] by its sections, [None]
    where reading it raises. *)
Variable has_secrets : bool.
Variable secrets : option (gmap string value).

Definition credentials_file : string := "data/credentials.json".

Definition hash_password (password : string) : string :=
  sha256_hexdigest password.

(** Returns the credentials and leaves them in the file. *)
Definition create_default_credentials (files : gmap string string)
  : value * gmap string string :=
  let default_creds :=
    VDict [ ("username", VStr "admin");
            ("password", VStr (hash_password "admin123")) ] in
  (default_creds, <[credentials_file := dump default_creds]> files).

(** An exception of the [try] block, wherever it comes from, ends in
    [create_default_credentials]. *)
Definition load_user_credentials (files : gmap string string)
  : value * gmap string string :=
  let section : option (option value) :=
    if has_secrets
    then sections ← secrets; Some (sections !! "auth")
    else Some None in
  match section with
  | Some (Some auth) =>
      match Py.getattr auth "username", Py.getattr auth "password_hash" with
      | Ok username, Ok password => 
          (VDict [("username", username); ("password", password)], files)
      | _, _ => create_default_credentials files
      end
  | Some None =>
      match files !! credentials_file with
      | Some text =>
          match load text with
          | Some creds => (creds, files)
          | None => create_default_credentials files
          end
      | None => create_default_credentials files
      end
  | None => create_default_credentials files
  end.

(** The [and] does not look at the password where the username differs. *)
Definition verify_credentials (username password : string)
    (files : gmap string string) : Py.result bool * gmap string string :=
  let '(creds, files) := load_user_credentials files in
  (stored_username ← Py.get creds "username" VNone;
   if Py.eq_str username stored_username
   then stored_password ← Py.get creds "password" VNone;
        mret (Py.eq_str (hash_password password) stored_password)
   else mret false,
   files).

End auth.

End auth.

(** ** setup.py *)

Module setup.

Section setup.

Variable sha256_hexdigest : string → string.
Variable dump : value → string.

(** The two files [create_default_config] writes. *)
Definition create_default_config (files : gmap string string)
  : gmap string string :=
  let default_password := "admin123" in
  let password_hash := sha256_hexdigest default_password in
  let credentials :=
    VDict [("username", VStr "admin"); ("password", VStr password_hash)] in
  let files := <["data/credentials.json" := dump credentials]> files in
  let api_config :=
    VDict [ ("api_key", VStr "");
            ("base_url", VStr "https://api.perplexity.ai");
            ("default_model", VStr "sonar-pro");
            ("default_max_tokens", VInt 1000);
            ("default_temperature", VFloat 0.7) ] in
  <["data/config.json" := dump api_config]> files.

End setup.

End setup.

(** * The vocabulary of the properties *)

Section vocabulary.
Import DataService.

(** The options [send_chat_request] reads from its keyword arguments,
    each with the value it takes when the caller gives none. *)
Definition tuning_defaults : list (string * value) :=
  [ ("max_tokens", VInt 1000);
    ("temperature", VFloat 0.7);
    ("top_p", VFloat 1.0);
    ("presence_penalty", VFloat 0.0);
    ("frequency_penalty", VFloat 0.0);
    ("return_citations", VBool true);
    ("return_related_questions", VBool true);
    ("return_images", VBool false) ].

(** The payload [kvs] with the key [key] taken out. *)
Definition without (key : string) (kvs : list (string * value))
  : list (string * value) :=
  filter (λ kv, kv.1 ≠ key) kvs.

(** The collections a directory holds, as [_load_json] reads them. *)
Definition requests_of (disk : Disk) : list ApiRequestLog.t :=
  (_load_json requests_file disk).1.








(** The token count of an entry that has one. *)
Definition token_count (r : ApiRequestLog.t) : option Z :=
  match ApiRequestLog.total_tokens r with
  | VInt n => Some n
  | _ => None
  end.

(** An entry whose [total_tokens] is as annotated, [Optional[int]]. *)
Definition tokens_typed (r : ApiRequestLog.t) : Prop :=
  ApiRequestLog.total_tokens r = VNone
  ∨ ∃ n, ApiRequestLog.total_tokens r = VInt n.

Definition sum_Z (ns : list Z) : Z := foldr Z.add 0%Z ns.


(** The log of the specification's example: three completed entries with
    10, 20 and 30 tokens and one entry in error, over ten days. *)
Definition example_entry (id : string) (day : Z) (status : string)
    (total_tokens : value) : ApiRequestLog.t :=
  ApiRequestLog.mk id (timedelta_days day) "sonar-pro" (VStr "Hello") "{}"
    None VNone VNone VNone VNone total_tokens status None None [].

Definition example_log : list ApiRequestLog.t :=
  [ example_entry "id-1" 0 "completed" (VInt 10);
    example_entry "id-2" 2 "completed" (VInt 20);
    example_entry "id-3" 5 "error" VNone;
    example_entry "id-4" 9 "completed" (VInt 30) ].

(** [x] is listed before [y] where the newest come first. *)
Definition newest_first {A : Type} (key : A → Z) : relation A :=
  λ x y, (key y ≤ key x)%Z.

(** The shapes [_parse_response] relies on: a dict, a choice that is a
    dict whose [message], where it has one, is a dict, and an iterable
    whose items all have a given shape. *)
Definition is_dict (v : value) : bool :=
  match v with
  | VDict _ => true
  | _ => false
  end.

Definition choice_shaped (choice_data : value) : bool :=
  match choice_data with
  | VDict kvs => is_dict (default (VDict []) (Py.dict_lookup "message" kvs))
  | _ => false
  end.

Definition items_shaped (shaped : value → bool) (v : value) : bool :=
  match Py.iter v with
  | Ok items => forallb shaped items
  | Raise _ => false
  end.

Definition payload_shaped (kvs : list (string * value)) : bool :=
  is_dict (default (VDict []) (Py.dict_lookup "usage" kvs))
  && items_shaped choice_shaped (default (VList []) (Py.dict_lookup "choices" kvs))
  && match Py.dict_lookup "search_results" kvs with
     | Some found =>
         if Py.truthy found then items_shaped is_dict found else true
     | None => true
     end.

(** The payload of the request [test_connection] sends. *)
Definition probe_payload : list (string * value) :=
  [ ("model", VStr "sonar-pro");
    ("messages",
      VList [VDict [("role", VStr "user");
                    ("content", VStr "Hello, this is a test message. Please respond with a simple confirmation.")]]);
    ("max_tokens", VInt 50);
    ("temperature", VFloat 0.7);
    ("top_p", VFloat 1.0);
    ("presence_penalty", VFloat 0.0);
    ("frequency_penalty", VFloat 0.0);
    ("stream", VBool false);
    ("return_citations", VBool true);
    ("return_related_questions", VBool true);
    ("return_images", VBool false) ].


(** The credentials [create_default_credentials] makes, which are also
    those the setup script writes. *)
Definition default_credentials (sha256_hexdigest : string → string) : value :=
  VDict [ ("username", VStr "admin");
          ("password", VStr (sha256_hexdigest "admin123")) ].
End vocabulary.

(** * Properties *)

(** ** Facts about dicts *)

Section dict_facts.
Context {V : Type}.
Implicit Types (d : list (string * V)) (k : string) (v : V).

Lemma dict_lookup_None d k : k ∉ d.*1 → Py.dict_lookup k d = None.
Proof.
  induction d as [|[k' v'] d IH]; simpl; [done|].
  intros Hk. apply not_elem_of_cons in Hk as [Hne Hk].
  case_decide; [congruence | auto].
Qed.

Lemma dict_set_fresh d k v : k ∉ d.*1 → Py.dict_set k v d = d ++ [(k, v)].
Proof.
  induction d as [|[k' v'] d IH]; simpl; [done|].
  intros Hk. apply not_elem_of_cons in Hk as [Hne Hk].
  case_decide; [congruence | by rewrite IH].
Qed.

Lemma dict_lookup_filter (P : string * V → Prop) `{∀ kv, Decision (P kv)} d k :
  NoDup d.*1 →
  Py.dict_lookup k (filter P d)
  = v ← Py.dict_lookup k d; if decide (P (k, v)) then Some v else None.
Proof.
  induction d as [|[k' v'] d IH]; simpl; [done|].
  intros Hnd. apply NoDup_cons in Hnd as [Hk' Hnd].
  rewrite filter_cons. destruct (decide (k' = k)) as [->|Hne].
  - simpl. destruct (decide (P (k, v'))) as [HP|HP]; simpl.
    + by rewrite decide_True.
    + apply dict_lookup_None. intros Hin. apply Hk'.
      apply list_elem_of_fmap in Hin as [kv [-> Hin]].
      apply list_elem_of_fmap. exists kv. split; [done|].
      by apply list_elem_of_filter in Hin as [_ Hin].
  - destruct (decide (P (k', v'))); simpl; [rewrite decide_False by done|]; auto.
Qed.

End dict_facts.

(** ** The wire payload of a request *)

Section to_dict.
Import PerplexityRequest.

Lemma asdict_keys self :
  (asdict self).*1 =
    ["model"; "messages"; "max_tokens"; "temperature"; "top_p";
     "presence_penalty"; "frequency_penalty"; "stream"; "return_citations";
     "return_related_questions"; "return_images"].
Proof. reflexivity. Qed.

Lemma asdict_NoDup self : NoDup (asdict self).*1.
Proof. rewrite asdict_keys. by apply (bool_decide_unpack _). Qed.

(** The loop appends each item that is set, as long as no key repeats. *)
Lemma to_dict_loop self items acc :
  NoDup (acc.*1 ++ items.*1) →
  (∀ v, ("messages", v) ∈ items →
        v = VList (PerplexityMessage.asdict <$> messages self)) →
  foldl (to_dict_step self) acc items
  = acc ++ filter (λ kv, ¬ Py.is_none kv.2) items.
Proof.
  revert acc. induction items as [|[key v] items IH]; intros acc Hnd Hmsg; simpl.
  - by rewrite app_nil_r.
  - assert (key ∉ acc.*1) as Hfresh.
    { apply NoDup_app in Hnd as (_ & Hdisj & _). intros Hin.
      apply (Hdisj _ Hin). simpl. left. }
    rewrite filter_cons. simpl. destruct (Py.is_none v) eqn:Hv; simpl.
    + apply IH.
      * apply NoDup_app in Hnd as (Ha & Hdisj & Hi).
        apply NoDup_cons in Hi as [_ Hi].
        apply NoDup_app. split_and!; [done| |done].
        intros x Hx Hx'. apply (Hdisj x Hx). by right.
      * intros v' Hin. apply Hmsg. by right.
    + assert (Py.dict_set key
                (if decide (key = "messages")
                 then VList (PerplexityMessage.asdict <$> messages self) else v) acc
              = acc ++ [(key, v)]) as Hset.
      { rewrite dict_set_fresh by done. case_decide as Hk; [|done].
        subst key. by rewrite <- (Hmsg v) by left. }
      replace (if decide (key = "messages")
               then Py.dict_set key (VList (PerplexityMessage.asdict <$> messages self)) acc
               else Py.dict_set key v acc) with (acc ++ [(key, v)])
        by (rewrite <- Hset; by case_decide).
      rewrite IH.
      * by rewrite <- app_assoc.
      * rewrite fmap_app. simpl. rewrite <- app_assoc. done.
      * intros v' Hin. apply Hmsg. by right.
Qed.


End to_dict.

(** ** The chat request *)

Section chat_request.
Import PerplexityService.

(** C7, as stated, fails for [stream]: a caller who passes [stream=True]
    gets a request with [stream] false. *)
Lemma stream_keyword_is_ignored :
  let kwargs : gmap string value := {["stream" := VBool true]} in
  kwargs !! "stream" = Some (VBool true)
  ∧ PerplexityRequest.stream (chat_request "Hello" "sonar-pro" kwargs) = VBool false
  ∧ PerplexityRequest.stream (chat_request "Hello" "sonar-pro" kwargs) ≠ VBool true.
Proof. split_and!; [done|done|discriminate]. Qed.

(** C7, amended.  [send_chat_request] sends, through [send_request], the
    request [chat_request] builds: the model given, one message of role
    "user" whose content is the prompt, [stream] false whatever the
    keyword arguments are, and each of the eight options of
    [tuning_defaults] at the value the caller passed, or at its default
    when the caller passed none.  With no keyword argument the request is
    the one with max_tokens 1000, temperature 0.7, top_p 1.0, both
    penalties 0.0, citations and related questions true, images false. *)
Theorem send_chat_request_defaults_and_overrides
    (session_post : string → list (string * value) → post_outcome)
    (base_url prompt model : string) (kwargs : gmap string value) :
  let request := chat_request prompt model kwargs in
  send_chat_request session_post base_url prompt model kwargs
  = send_request session_post base_url request
  ∧ PerplexityRequest.model request = model
  ∧ PerplexityRequest.messages request
    = [PerplexityMessage.mk (VStr "user") (VStr prompt)]
  ∧ PerplexityRequest.stream request = VBool false
  ∧ (∀ key dflt, (key, dflt) ∈ tuning_defaults →
       Py.dict_lookup key (PerplexityRequest.asdict request)
       = Some (default dflt (kwargs !! key)))
  ∧ chat_request prompt model ∅
    = PerplexityRequest.mk model
        [PerplexityMessage.mk (VStr "user") (VStr prompt)]
        (VInt 1000) (VFloat 0.7) (VFloat 1.0) (VFloat 0.0) (VFloat 0.0)
        (VBool false) (VBool true) (VBool true) (VBool false).
Proof.
  intros request. split_and!; try done.
  intros key dflt Hin. unfold tuning_defaults in Hin.
  repeat (apply elem_of_cons in Hin as [Heq|Hin]; [by inversion Heq|]).
  by apply elem_of_nil in Hin.
Qed.

End chat_request.

(** ** Parsing a response *)

Section parse_response.
Import PerplexityService.

Lemma dict_lookup_without key key' (kvs : list (string * value)) :
  Py.dict_lookup key (without key' kvs)
  = if decide (key = key') then None else Py.dict_lookup key kvs.
Proof.
  unfold without. induction kvs as [|[k v] kvs IH]; simpl.
  - by case_decide.
  - rewrite filter_cons. simpl. destruct (decide (k ≠ key')) as [Hne|Heq]; simpl.
    + rewrite IH. repeat case_decide; congruence.
    + apply dec_stable in Heq. subst k. rewrite IH.
      repeat case_decide; congruence.
Qed.

(** Runs the goal through the steps of a [result] computation: each step
    either raised, which the hypothesis of success excludes, or gave a
    value. *)
Ltac step_result :=
  repeat match goal with
  | |- context [?m ≫= _] => destruct m; simpl; try (intros; discriminate)
  end.

(** C3, as stated, fails in its second half: a payload without [usage],
    one without [choices] and one without [id] are each parsed, with no
    exception. *)
Lemma missing_required_fields_are_parsed :
  _parse_response (VDict [("id", VStr "r-1"); ("choices", VList [])])
  = Ok (PerplexityResponse.mk (VStr "r-1") (VStr "") (VInt 0) (VStr "") []
          (PerplexityUsage.mk (VInt 0) (VInt 0) (VInt 0)) None VNone VNone)
  ∧ _parse_response
      (VDict [("id", VStr "r-1");
              ("usage", VDict [("prompt_tokens", VInt 1);
                               ("completion_tokens", VInt 2);
                               ("total_tokens", VInt 3)])])
    = Ok (PerplexityResponse.mk (VStr "r-1") (VStr "") (VInt 0) (VStr "") []
            (PerplexityUsage.mk (VInt 1) (VInt 2) (VInt 3)) None VNone VNone)
  ∧ _parse_response (VDict [])
    = Ok (PerplexityResponse.mk (VStr "") (VStr "") (VInt 0) (VStr "") []
            (PerplexityUsage.mk (VInt 0) (VInt 0) (VInt 0)) None VNone VNone).
Proof. split_and!; reflexivity. Qed.

(** C3, amended.  Taking a top-level field out of a payload that is
    parsed leaves a payload that is parsed, to the same response but for
    that field: without [search_results], [related_questions] or
    [citations] the field is [None]; without [usage] the three token
    counts are 0, without [choices] the choices are the empty list,
    without [id] the id is the empty string.  A missing field, optional
    or not, raises nothing. *)
Theorem parse_response_missing_fields
    (kvs : list (string * value)) (response : PerplexityResponse.t) :
  _parse_response (VDict kvs) = Ok response →
  let id := PerplexityResponse.id response in
  let object := PerplexityResponse.object response in
  let created := PerplexityResponse.created response in
  let model := PerplexityResponse.model response in
  let choices := PerplexityResponse.choices response in
  let usage := PerplexityResponse.usage response in
  let search_results := PerplexityResponse.search_results response in
  let related_questions := PerplexityResponse.related_questions response in
  let citations := PerplexityResponse.citations response in
  _parse_response (VDict (without "search_results" kvs))
  = Ok (PerplexityResponse.mk id object created model choices usage
          None related_questions citations)
  ∧ _parse_response (VDict (without "related_questions" kvs))
    = Ok (PerplexityResponse.mk id object created model choices usage
            search_results VNone citations)
  ∧ _parse_response (VDict (without "citations" kvs))
    = Ok (PerplexityResponse.mk id object created model choices usage
            search_results related_questions VNone)
  ∧ _parse_response (VDict (without "usage" kvs))
    = Ok (PerplexityResponse.mk id object created model choices
            (PerplexityUsage.mk (VInt 0) (VInt 0) (VInt 0))
            search_results related_questions citations)
  ∧ _parse_response (VDict (without "choices" kvs))
    = Ok (PerplexityResponse.mk id object created model []
            usage search_results related_questions citations)
  ∧ _parse_response (VDict (without "id" kvs))
    = Ok (PerplexityResponse.mk (VStr "") object created model choices
            usage search_results related_questions citations).
Proof.
  intros Hparse; simpl.
  split_and!; revert Hparse; unfold _parse_response; simpl;
    rewrite !dict_lookup_without; simpl; step_result;
    by intros [= <-].
Qed.

(** A payload that is parsed and lacks two of the optional fields, one
    that shows the hypothesis of the theorem is met. *)
Lemma parse_response_missing_fields_witness :
  let kvs :=
    [ ("id", VStr "r-1"); ("object", VStr "chat.completion");
      ("created", VInt 1700000000); ("model", VStr "sonar-pro");
      ("choices",
        VList [VDict [("index", VInt 0); ("finish_reason", VStr "stop");
                      ("message", VDict [("role", VStr "assistant");
                                         ("content", VStr "Hi")])]]);
      ("usage", VDict [("prompt_tokens", VInt 1);
                       ("completion_tokens", VInt 2);
                       ("total_tokens", VInt 3)]);
      ("search_results",
        VList [VDict [("title", VStr "T"); ("url", VStr "U");
                      ("snippet", VStr "S")]]) ] in
  let message := PerplexityMessage.mk (VStr "assistant") (VStr "Hi") in
  let choices := [PerplexityChoice.mk (VInt 0) (VStr "stop") message] in
  let usage := PerplexityUsage.mk (VInt 1) (VInt 2) (VInt 3) in
  let found := [PerplexitySearchResult.mk (VStr "T") (VStr "U") (VStr "S")] in
  _parse_response (VDict kvs)
  = Ok (PerplexityResponse.mk (VStr "r-1") (VStr "chat.completion")
          (VInt 1700000000) (VStr "sonar-pro") choices usage
          (Some found) VNone VNone)
  ∧ _parse_response (VDict (without "search_results" kvs))
    = Ok (PerplexityResponse.mk (VStr "r-1") (VStr "chat.completion")
            (VInt 1700000000) (VStr "sonar-pro") choices usage
            None VNone VNone)
  ∧ _parse_response (VDict (without "usage" kvs))
    = Ok (PerplexityResponse.mk (VStr "r-1") (VStr "chat.completion")
            (VInt 1700000000) (VStr "sonar-pro") choices
            (PerplexityUsage.mk (VInt 0) (VInt 0) (VInt 0))
            (Some found) VNone VNone).
Proof.
  intros kvs message choices usage found.
  assert (_parse_response (VDict kvs)
          = Ok (PerplexityResponse.mk (VStr "r-1") (VStr "chat.completion")
                  (VInt 1700000000) (VStr "sonar-pro") choices usage
                  (Some found) VNone VNone)) as Hparse by reflexivity.
  split; [exact Hparse|].
  pose proof (parse_response_missing_fields kvs _ Hparse) as H.
  simpl in H. destruct H as (Hsr & _ & _ & Husage & _ & _).
  split; [exact Hsr | exact Husage].
Defined.

End parse_response.

(** ** The audit store *)

Section store.
Import DataService.




















(** *** Statistics *)

Lemma sum_of_token_counts (requests : list ApiRequestLog.t) (acc : Z) :
  Forall tokens_typed requests →
  Py.sum_from (Py.NInt acc)
    (ApiRequestLog.total_tokens <$>
       filter (λ r, Py.truthy (ApiRequestLog.total_tokens r)) requests)
  = Ok (Py.NInt (acc + sum_Z (omap token_count requests))).
Proof.
  intros Htyped. revert acc.
  induction Htyped as [|r requests [Hr|[n Hr]] _ IH]; intros acc; simpl.
  - by rewrite Z.add_0_r.
  - unfold token_count. rewrite filter_cons, Hr. simpl. apply IH.
  - unfold token_count at 1. rewrite filter_cons, Hr. simpl.
    destruct (Z.eqb_spec n 0) as [->|Hn]; simpl.
    + rewrite IH. do 2 f_equal; unfold sum_Z; lia.
    + rewrite Hr. simpl. rewrite IH. do 2 f_equal. symmetry. apply Z.add_assoc.
Qed.




Lemma usage_statistics_run (disk : Disk) (now : datetime) :
  Forall tokens_typed (requests_of disk) →
  let requests := requests_of disk in
  let total := Z.of_nat (length requests) in
  let completed :=
    Z.of_nat (length (filter (λ r, ApiRequestLog.status r = "completed") requests)) in
  let tokens := sum_Z (omap token_count requests) in
  get_usage_statistics now disk
  = (Ok (UsageStatistics.mk total completed (VInt tokens)
           (if (0 <? total)%Z
            then VFloat (Py.int_truediv completed total * Py.float_of_int 100)
            else VInt 0)
           (foldl count_model ∅ requests)
           (Z.of_nat (length (filter
              (λ r, (now - timedelta_days 7 ≤ ApiRequestLog.timestamp r)%Z)
              requests)))
           (if (0 <? completed)%Z
            then VFloat (Py.int_truediv tokens completed)
            else VInt 0)),
     disk).
Proof.
  intros Htyped requests total completed tokens.
  unfold get_usage_statistics.
  unfold mbind at 1, Store_bind, _load_json. cbn beta iota zeta.
  change (default (empty requests_file) (read requests_file disk)) with requests.
  unfold Py.sum. rewrite sum_of_token_counts by done. reflexivity.
Qed.






End store.

(** ** The JSON files *)

Section json_file.
Import JsonFile.



End json_file.

(** * Further properties of the code *)

Set Warnings "-clear-no-such-hyp".

(** ** Sorting and slicing *)

Section sort_facts.
Context {A : Type} (key : A → Z).
Implicit Types (x : A) (xs : list A).

Lemma insert_desc_Permutation x xs : Py.insert_desc key x xs ≡ₚ x :: xs.
Proof.
  induction xs as [|y xs IH]; simpl; [done|].
  case_match; [done|]. rewrite IH. apply Permutation_swap.
Qed.

Lemma sort_desc_Permutation xs : Py.sort_desc key xs ≡ₚ xs.
Proof.
  induction xs as [|x xs IH]; simpl; [done|].
  by rewrite insert_desc_Permutation, IH.
Qed.

Lemma insert_desc_sorted x xs :
  StronglySorted (newest_first key) xs →
  StronglySorted (newest_first key) (Py.insert_desc key x xs).
Proof.
  unfold newest_first.
  induction 1 as [|y xs Hxs IH Hy]; simpl; [repeat constructor|].
  destruct (Z.leb_spec (key y) (key x)) as [Hle|Hlt].
  - constructor; [by constructor|]. constructor; [done|].
    eapply Forall_impl; [exact Hy|]. simpl. intros z Hz. lia.
  - constructor; [done|].
    rewrite insert_desc_Permutation. constructor; [lia|done].
Qed.

Lemma sort_desc_sorted xs :
  StronglySorted (newest_first key) (Py.sort_desc key xs).
Proof.
  induction xs as [|x xs IH]; simpl; [constructor|].
  by apply insert_desc_sorted.
Qed.

Lemma slice_to_take (limit : Z) xs :
  ∃ n, Py.slice_to limit xs = take n xs
       ∧ (n ≤ length xs)%nat
       ∧ ((0 ≤ limit)%Z → n = min (Z.to_nat limit) (length xs))
       ∧ ((limit < 0)%Z → n = (length xs - Z.to_nat (- limit))%nat).
Proof.
  unfold Py.slice_to. destruct (Z.leb_spec 0 limit) as [Hle|Hlt].
  - exists (min (Z.to_nat limit) (length xs)). split_and!; [|lia|done|lia].
    destruct (decide (Z.to_nat limit ≤ length xs)%nat).
    + by rewrite Nat.min_l by done.
    + rewrite Nat.min_r by lia. by rewrite !take_ge by lia.
  - exists (length xs - Z.to_nat (- limit))%nat. split_and!; [done|lia|lia|done].
Qed.

(** The slice of a sorted list, and what it leaves out. *)
Lemma sorted_slice (limit : Z) xs :
  let sorted := Py.sort_desc key xs in
  let found := Py.slice_to limit sorted in
  StronglySorted (newest_first key) found
  ∧ ∃ rest,
      found ++ rest ≡ₚ xs
      ∧ length found + length rest = length xs
      ∧ (∀ x y, x ∈ found → y ∈ rest → newest_first key x y).
Proof.
  intros sorted found.
  destruct (slice_to_take limit sorted) as (n & Hfound & Hn & _).
  fold found in Hfound.
  pose proof (sort_desc_sorted xs) as Hsorted. fold sorted in Hsorted.
  rewrite <- (take_drop n sorted), <- Hfound in Hsorted.
  split; [by eapply StronglySorted_app_1_l|].
  exists (drop n sorted). split_and!.
  - rewrite Hfound, take_drop. apply sort_desc_Permutation.
  - rewrite <- length_app, Hfound, take_drop.
    unfold sorted. by rewrite sort_desc_Permutation.
  - intros x y Hx Hy. by eapply StronglySorted_app_1_elem_of.
Qed.

End sort_facts.

(** ** Queries on the request log *)

Section queries.
Import DataService.

Lemma find_first_split {A : Type} (P : A → Prop) `{∀ x, Decision (P x)}
    (xs : list A) (x : A) :
  snd <$> list_find P xs = Some x
  ↔ ∃ before after, xs = before ++ x :: after ∧ P x ∧ Forall (λ y, ¬ P y) before.
Proof.
  induction xs as [|y xs IH]; simpl.
  - split; [done|]. intros (before & after & Heq & _). by destruct before.
  - destruct (decide (P y)) as [Hy|Hy]; simpl.
    + split.
      * intros [= <-]. exists [], xs. by split_and!.
      * intros (before & after & Heq & Hx & Hbefore).
        destruct before as [|z before]; simplify_eq/=; [done|].
        by apply Forall_cons_1 in Hbefore as [? _].
    + rewrite <- option_fmap_compose. rewrite IH. split.
      * intros (before & after & -> & Hx & Hbefore).
        exists (y :: before), after. split_and!; [done|done|by constructor].
      * intros (before & after & Heq & Hx & Hbefore).
        destruct before as [|z before]; simplify_eq/=; [done|].
        apply Forall_cons_1 in Hbefore as [_ Hbefore]. eauto.
Qed.

Lemma get_recent_requests_run (disk : Disk) (limit : Z) :
  (get_recent_requests limit disk).1
  = Py.slice_to limit (Py.sort_desc ApiRequestLog.timestamp (requests_of disk)).
Proof. reflexivity. Qed.

Lemma get_requests_by_model_run (disk : Disk) (model : string) (limit : Z) :
  (get_requests_by_model model limit disk).1
  = Py.slice_to limit
      (Py.sort_desc ApiRequestLog.timestamp
         (filter (λ r, ApiRequestLog.model r = model) (requests_of disk))).
Proof. reflexivity. Qed.

Lemma get_request_by_id_run (disk : Disk) (request_id : string) :
  (get_request_by_id request_id disk).1
  = snd <$> list_find (λ r, ApiRequestLog.id r = request_id) (requests_of disk).
Proof. reflexivity. Qed.

(** X1.  With a limit that is not negative, [get_recent_requests] changes
    no file and returns [limit] entries of the log, or all of them when
    the log has fewer, the newest first; no entry it leaves out is newer
    than one it returns. *)
Theorem get_recent_requests_newest_first (disk : Disk) (limit : Z) :
  (0 ≤ limit)%Z →
  let found := (get_recent_requests limit disk).1 in
  (get_recent_requests limit disk).2 = disk
  ∧ length found = min (Z.to_nat limit) (length (requests_of disk))
  ∧ StronglySorted (newest_first ApiRequestLog.timestamp) found
  ∧ ∃ rest,
      found ++ rest ≡ₚ requests_of disk
      ∧ ∀ r r', r ∈ found → r' ∈ rest →
          (ApiRequestLog.timestamp r' ≤ ApiRequestLog.timestamp r)%Z.
Proof.
  intros Hlimit found.
  destruct (sorted_slice ApiRequestLog.timestamp limit (requests_of disk))
    as (Hsorted & rest & Hperm & _ & Hnewer).
  rewrite <- get_recent_requests_run in Hsorted, Hperm, Hnewer.
  split_and!; [done| |exact Hsorted|by exists rest].
  unfold found. rewrite get_recent_requests_run.
  destruct (slice_to_take limit
              (Py.sort_desc ApiRequestLog.timestamp (requests_of disk)))
    as (n & -> & _ & Hn & _).
  rewrite length_take, (Hn Hlimit), sort_desc_Permutation. lia.
Qed.

(** The two newest entries of the example log. *)
Lemma get_recent_requests_newest_first_witness :
  let disk := mkDisk (Some example_log) None None in
  (0 ≤ 2)%Z
  ∧ ApiRequestLog.id <$> (get_recent_requests 2 disk).1 = ["id-4"; "id-3"]
  ∧ length (get_recent_requests 2 disk).1
    = min (Z.to_nat 2) (length (requests_of disk)).
Proof.
  intros disk. split; [lia|]. split; [by vm_compute|].
  exact (proj1 (proj2 (get_recent_requests_newest_first disk 2 ltac:(lia)))).
Defined.

(** X2.  A negative limit does not give the empty list: it leaves out
    the [-limit] oldest entries of the log and returns the others, the
    newest first. *)
Theorem get_recent_requests_negative_limit (disk : Disk) (limit : Z) :
  (limit < 0)%Z →
  let found := (get_recent_requests limit disk).1 in
  length found = (length (requests_of disk) - Z.to_nat (- limit))%nat
  ∧ StronglySorted (newest_first ApiRequestLog.timestamp) found
  ∧ ∃ rest,
      found ++ rest ≡ₚ requests_of disk
      ∧ length rest = min (Z.to_nat (- limit)) (length (requests_of disk))
      ∧ ∀ r r', r ∈ found → r' ∈ rest →
          (ApiRequestLog.timestamp r' ≤ ApiRequestLog.timestamp r)%Z.
Proof.
  intros Hlimit found.
  destruct (sorted_slice ApiRequestLog.timestamp limit (requests_of disk))
    as (Hsorted & rest & Hperm & Hlength & Hnewer).
  rewrite <- get_recent_requests_run in Hsorted, Hperm, Hlength, Hnewer.
  assert (length found
          = (length (requests_of disk) - Z.to_nat (- limit))%nat) as Hfound.
  { unfold found. rewrite get_recent_requests_run.
    destruct (slice_to_take limit
                (Py.sort_desc ApiRequestLog.timestamp (requests_of disk)))
      as (n & -> & _ & _ & Hn).
    rewrite length_take, (Hn Hlimit), sort_desc_Permutation. lia. }
  split_and!; [exact Hfound|exact Hsorted|].
  exists rest. split_and!; [done| |done].
  change (length found + length rest = length (requests_of disk)) in Hlength.
  lia.
Qed.

(** The example log without its oldest entry. *)
Lemma get_recent_requests_negative_limit_witness :
  let disk := mkDisk (Some example_log) None None in
  (-1 < 0)%Z
  ∧ ApiRequestLog.id <$> (get_recent_requests (-1) disk).1
    = ["id-4"; "id-3"; "id-2"]
  ∧ length (get_recent_requests (-1) disk).1
    = (length (requests_of disk) - Z.to_nat (- -1))%nat.
Proof.
  intros disk. split; [lia|]. split; [by vm_compute|].
  exact (proj1 (get_recent_requests_negative_limit disk (-1) ltac:(lia))).
Defined.

(** X3.  [get_requests_by_model] changes no file and returns entries of
    the given model only, the newest first; with a limit that is not
    negative it returns [limit] of the entries of that model, or all of
    them when there are fewer, and none it leaves out is newer than one
    it returns. *)
Theorem get_requests_by_model_sound (disk : Disk) (model : string) (limit : Z) :
  let found := (get_requests_by_model model limit disk).1 in
  let of_model :=
    filter (λ r, ApiRequestLog.model r = model) (requests_of disk) in
  (get_requests_by_model model limit disk).2 = disk
  ∧ Forall (λ r, ApiRequestLog.model r = model ∧ r ∈ requests_of disk) found
  ∧ StronglySorted (newest_first ApiRequestLog.timestamp) found
  ∧ (∃ rest,
      found ++ rest ≡ₚ of_model
      ∧ ∀ r r', r ∈ found → r' ∈ rest →
          (ApiRequestLog.timestamp r' ≤ ApiRequestLog.timestamp r)%Z)
  ∧ ((0 ≤ limit)%Z → length found = min (Z.to_nat limit) (length of_model)).
Proof.
  intros found of_model.
  destruct (sorted_slice ApiRequestLog.timestamp limit of_model)
    as (Hsorted & rest & Hperm & _ & Hnewer).
  unfold of_model in Hsorted, Hperm, Hnewer.
  rewrite <- get_requests_by_model_run in Hsorted, Hperm, Hnewer.
  split_and!; [done| |exact Hsorted|by exists rest|].
  - apply Forall_forall. intros r Hr.
    assert (r ∈ of_model) as Hin.
    { unfold of_model. rewrite <- Hperm. apply elem_of_app. by left. }
    apply list_elem_of_filter in Hin. done.
  - intros Hlimit. unfold found. rewrite get_requests_by_model_run.
    fold of_model.
    destruct (slice_to_take limit
                (Py.sort_desc ApiRequestLog.timestamp of_model))
      as (n & -> & _ & Hn & _).
    rewrite length_take, (Hn Hlimit), sort_desc_Permutation. lia.
Qed.

(** X4.  [get_request_by_id] returns [None] exactly when no entry has
    the id, and otherwise the first entry of the log that has it. *)
Theorem get_request_by_id_first_match (disk : Disk) (request_id : string) :
  let found := (get_request_by_id request_id disk).1 in
  (get_request_by_id request_id disk).2 = disk
  ∧ (found = None ↔ request_id ∉ ApiRequestLog.id <$> requests_of disk)
  ∧ ∀ entry,
      found = Some entry
      ↔ ∃ before after,
          requests_of disk = before ++ entry :: after
          ∧ ApiRequestLog.id entry = request_id
          ∧ request_id ∉ ApiRequestLog.id <$> before.
Proof.
  intros found. split_and!; [done| |].
  - unfold found. rewrite get_request_by_id_run.
    rewrite fmap_None, list_find_None, Forall_forall. split.
    + intros Hnone Hin. apply list_elem_of_fmap in Hin as (r & -> & Hr).
      by apply (Hnone r).
    + intros Hnotin r Hr Hid. apply Hnotin. apply list_elem_of_fmap. eauto.
  - intros entry. unfold found. rewrite get_request_by_id_run.
    rewrite find_first_split.
    split; intros (before & after & Heq & Hid & Hbefore);
      exists before, after; split_and!; try done.
    + intros Hin. apply list_elem_of_fmap in Hin as (r & -> & Hr).
      rewrite Forall_forall in Hbefore. by apply (Hbefore r).
    + apply Forall_forall. intros r Hr Hrid. apply Hbefore.
      apply list_elem_of_fmap. eauto.
Qed.

End queries.

(** ** Recording outcomes *)

Section outcomes.
Import DataService.










End outcomes.

(** ** Statistics at the edges *)

Section statistics_edges.
Import DataService.

(** X8.  With no entry in the log, which is also what a missing or
    unreadable log file reads as, every count of [get_usage_statistics]
    is 0, [model_usage] is empty, and the two rates are the int 0: no
    division is made. *)
Theorem usage_statistics_of_empty_log (disk : Disk) (now : datetime) :
  requests_of disk = [] →
  get_usage_statistics now disk
  = (Ok (UsageStatistics.mk 0 0 (VInt 0) (VInt 0) ∅ 0 (VInt 0)), disk).
Proof.
  intros Hempty.
  rewrite usage_statistics_run by (rewrite Hempty; constructor).
  by rewrite Hempty.
Qed.

(** A directory with no log file. *)
Lemma usage_statistics_of_empty_log_witness :
  let disk := mkDisk None None None in
  requests_of disk = []
  ∧ get_usage_statistics 0%Z disk
    = (Ok (UsageStatistics.mk 0 0 (VInt 0) (VInt 0) ∅ 0 (VInt 0)), disk).
Proof.
  intros disk. split; [reflexivity|].
  exact (usage_statistics_of_empty_log disk 0%Z eq_refl).
Defined.



End statistics_edges.

(** ** Prompts *)

Section prompts.
Import DataService.




End prompts.

(** ** Saved responses *)

Section saved_responses.
Import SavedResponses.

(** X12.  [get_saved_responses] returns every saved response once, the
    one saved last first; a missing or unreadable file gives the empty
    list. *)
Theorem get_saved_responses_newest_first (responses_file : File) :
  get_saved_responses responses_file ≡ₚ _load_json responses_file
  ∧ StronglySorted (newest_first SavedResponse.saved_at)
      (get_saved_responses responses_file)
  ∧ get_saved_responses None = [].
Proof.
  split_and!; [apply sort_desc_Permutation|apply sort_desc_sorted|done].
Qed.



End saved_responses.

(** ** The client *)

Section client.
Import PerplexityService.

Lemma get_ok_iff (obj : value) (key : string) (dflt : value) :
  (∃ v, Py.get obj key dflt = Ok v) ↔ is_dict obj.
Proof.
  destruct obj; simpl; split; try done; try (by intros [? ?]); eauto.
Qed.

Lemma mapM_ok_iff {A B : Type} (f : A → Py.result B) (shaped : A → bool)
    (xs : list A) :
  (∀ x, (∃ y, f x = Ok y) ↔ shaped x) →
  (∃ ys, mapM f xs = Ok ys ∧ length ys = length xs) ↔ forallb shaped xs.
Proof.
  intros Hf. induction xs as [|x xs IH]; simpl.
  - split; [done|]. intros _. by exists [].
  - rewrite andb_True, <- IH, <- Hf. split.
    + intros (ys & Hys & Hlen).
      destruct (f x) as [y|e] eqn:Hx; simpl in Hys; [|done].
      destruct (mapM f xs) as [ys'|e] eqn:Hxs; simpl in Hys; [|done].
      injection Hys as <-. simpl in Hlen. split; [eauto|].
      exists ys'. split; [done|lia].
    + intros [[y Hy] (ys & Hys & Hlen)]. exists (y :: ys).
      rewrite Hy. simpl. rewrite Hys. simpl. split; [done|lia].
Qed.

Lemma mapM_ok_length {A B : Type} (f : A → Py.result B) (xs : list A) ys :
  mapM f xs = Ok ys → length ys = length xs.
Proof.
  revert ys. induction xs as [|x xs IH]; intros ys; simpl.
  - by intros [= <-].
  - destruct (f x) as [y|e]; simpl; [|done].
    destruct (mapM f xs) as [ys'|e]; simpl; [|done].
    intros [= <-]. simpl. by rewrite (IH ys').
Qed.

Lemma parse_choice_ok_iff (choice_data : value) :
  (∃ choice, parse_choice choice_data = Ok choice) ↔ choice_shaped choice_data.
Proof.
  unfold parse_choice.
  destruct choice_data as [| | | | | |kvs]; simpl;
    try (split; [by intros [? ?]|done]).
  destruct (default (VDict []) (Py.dict_lookup "message" kvs)); simpl;
    split; try done; try (by intros [? ?]); eauto.
Qed.

Lemma parse_search_result_ok_iff (sr_data : value) :
  (∃ found, parse_search_result sr_data = Ok found) ↔ is_dict sr_data.
Proof.
  unfold parse_search_result.
  destruct sr_data; simpl; split; try done; try (by intros [? ?]); eauto.
Qed.

Lemma items_ok_iff {B : Type} (f : value → Py.result B) (shaped : value → bool)
    (v : value) :
  (∀ x, (∃ y, f x = Ok y) ↔ shaped x) →
  (∃ ys, (items ← Py.iter v; mapM f items) = Ok ys) ↔ items_shaped shaped v.
Proof.
  intros Hf. unfold items_shaped.
  destruct (Py.iter v) as [items|e]; simpl.
  - rewrite <- (mapM_ok_iff f shaped items Hf). split.
    + intros [ys Hys]. exists ys. split; [done|by eapply mapM_ok_length].
    + intros (ys & Hys & _). eauto.
  - split; [by intros [? ?]|done].
Qed.

(** X14.  [send_request] returns a response exactly when the server
    answers the POST of the request's payload to [/chat/completions]
    with status 200 and a JSON body that [_parse_response] parses, and
    then it returns what the parser made of the body; any other status,
    a body that is not JSON, a timeout or another exception gives
    [None]. *)
Theorem send_request_some_iff
    (session_post : string → list (string * value) → post_outcome)
    (base_url : string) (request : PerplexityRequest.t)
    (response : PerplexityResponse.t) :
  send_request session_post base_url request = Some response
  ↔ ∃ text response_data,
      session_post (base_url +:+ "/chat/completions")
        (PerplexityRequest.to_dict request)
      = Answer 200 text (Some response_data)
      ∧ _parse_response response_data = Ok response.
Proof.
  unfold send_request.
  destruct (session_post _ _) as [status_code text [response_data|]| | |];
    try (split; [done|by intros (? & ? & ? & ?)]).
  - case_decide as Hstatus.
    + subst status_code.
      destruct (_parse_response response_data) as [parsed|e] eqn:Hparse.
      * split.
        -- intros [= <-]. by exists text, response_data.
        -- intros (? & ? & [= <- <-] & Hparse'). congruence.
      * split; [done|]. intros (? & ? & [= <- <-] & Hparse'). congruence.
    + split; [done|]. by intros (? & ? & [= ? ? ?] & _).
  - case_decide; (split; [done|by intros (? & ? & ? & ?)]).
Qed.

(** X15.  [_parse_response] returns exactly for the payloads that are a
    dict in which [usage], where present, is a dict, [choices], where
    present, is an iterable of dicts whose [message], where present, is a
    dict, and [search_results], where present and truthy, is an iterable
    of dicts.  On every other payload it raises. *)
Theorem parse_response_ok_iff (response_data : value) :
  (∃ response, _parse_response response_data = Ok response)
  ↔ ∃ kvs, response_data = VDict kvs ∧ payload_shaped kvs.
Proof.
  destruct response_data as [| | | | | |kvs];
    try (split; [by intros [? ?]|by intros (? & ? & ?)]).
  transitivity (Is_true (payload_shaped kvs)); [|naive_solver].
  unfold payload_shaped, _parse_response. simpl.
  pose proof (get_ok_iff (default (VDict []) (Py.dict_lookup "usage" kvs)))
    as Husage.
  pose proof (items_ok_iff parse_choice choice_shaped
                (default (VList []) (Py.dict_lookup "choices" kvs))
                parse_choice_ok_iff) as Hchoices.
  rewrite !andb_True.
  destruct (default (VDict []) (Py.dict_lookup "usage" kvs)) as [| | | | | |usage];
    simpl; try naive_solver.
  rewrite <- Hchoices. clear Husage Hchoices.
  destruct (Py.iter (default (VList []) (Py.dict_lookup "choices" kvs)))
    as [items|e]; simpl; [|naive_solver].
  destruct (mapM parse_choice items) as [choices|e]; simpl; [|naive_solver].
  destruct (Py.dict_lookup "search_results" kvs) as [found|]; simpl;
    [|naive_solver].
  destruct (Py.truthy found); simpl; [|naive_solver].
  rewrite <- (items_ok_iff parse_search_result is_dict found
                parse_search_result_ok_iff).
  destruct (items ← Py.iter found; mapM parse_search_result items)
    as [parsed|e] eqn:Hfound; simpl; naive_solver.
Qed.

(** X16.  What a parsed payload never is: [search_results] of the
    response is never the empty list, an empty or falsy [search_results]
    of the payload gives [None]; and the response has one choice for each
    item of [choices] of the payload, none dropped or added. *)
Theorem parsed_response_invariants (kvs : list (string * value))
    (response : PerplexityResponse.t) :
  _parse_response (VDict kvs) = Ok response →
  PerplexityResponse.search_results response ≠ Some []
  ∧ (∃ items,
       Py.iter (default (VList []) (Py.dict_lookup "choices" kvs)) = Ok items
       ∧ length (PerplexityResponse.choices response) = length items)
  ∧ (∀ found, Py.dict_lookup "search_results" kvs = Some found →
       Py.truthy found = false →
       PerplexityResponse.search_results response = None)
  ∧ (∀ results, PerplexityResponse.search_results response = Some results →
       ∃ found items,
         Py.dict_lookup "search_results" kvs = Some found
         ∧ Py.iter found = Ok items
         ∧ length results = length items).
Proof.
  unfold _parse_response. simpl.
  destruct (default (VDict []) (Py.dict_lookup "usage" kvs)); simpl; try done.
  destruct (Py.iter (default (VList []) (Py.dict_lookup "choices" kvs)))
    as [items|e]; simpl; [|done].
  destruct (mapM parse_choice items) as [choices|e] eqn:Hchoices; simpl; [|done].
  apply mapM_ok_length in Hchoices.
  destruct (Py.dict_lookup "search_results" kvs) as [found|]; simpl.
  - destruct (Py.truthy found) eqn:Htruthy; simpl.
    + destruct (Py.iter found) as [sr_items|e] eqn:Hiter; simpl; [|done].
      destruct (mapM parse_search_result sr_items) as [parsed|e] eqn:Hparsed;
        simpl; [|done].
      apply mapM_ok_length in Hparsed.
      intros [= <-]. simpl. split_and!.
      * case_bool_decide; congruence.
      * by exists items.
      * intros ? [= <-]. congruence.
      * intros results Hresults. exists found, sr_items.
        case_bool_decide; [done|]. injection Hresults as <-. done.
    + intros [= <-]. simpl. split_and!; [done|by exists items|done|done].
  - intros [= <-]. simpl. split_and!; [done|by exists items|done|done].
Qed.

Lemma parsed_response_invariants_witness :
  let kvs := [("choices", VList [VDict []; VDict []]);
              ("search_results", VList [])] in
  ∃ response,
    _parse_response (VDict kvs) = Ok response
    ∧ PerplexityResponse.search_results response ≠ Some []
    ∧ length (PerplexityResponse.choices response) = 2.
Proof.
  eexists. split; [reflexivity|].
  pose proof (parsed_response_invariants
                [("choices", VList [VDict []; VDict []]);
                 ("search_results", VList [])] _ eq_refl)
    as (Hresults & (items & Hitems & Hlen) & _).
  split; [exact Hresults|].
  injection Hitems as <-. exact Hlen.
Defined.

(** The payload a request is sent as, key by key. *)
Lemma to_dict_lookup (self : PerplexityRequest.t) (key : string) :
  Py.dict_lookup key (PerplexityRequest.to_dict self)
  = v ← Py.dict_lookup key (PerplexityRequest.asdict self);
    if Py.is_none v then None else Some v.
Proof.
  assert (PerplexityRequest.to_dict self
          = filter (λ kv, ¬ Py.is_none kv.2) (PerplexityRequest.asdict self))
    as ->.
  { unfold PerplexityRequest.to_dict.
    rewrite (to_dict_loop self (PerplexityRequest.asdict self) []).
    - done.
    - apply asdict_NoDup.
    - intros v Hin. unfold PerplexityRequest.asdict in Hin.
      repeat (apply elem_of_cons in Hin as [Heq|Hin]; [by inversion Heq|]).
      by apply elem_of_nil in Hin. }
  rewrite dict_lookup_filter by apply asdict_NoDup.
  destruct (Py.dict_lookup key (PerplexityRequest.asdict self)) as [v|];
    simpl; [|done].
  destruct (Py.is_none v); by case_decide.
Qed.

(** X17.  The payload [send_chat_request] puts on the wire: the model,
    the one user message, [stream] false, and each of the eight options
    at the value the caller passed, or at its default when the caller
    passed none; an option the caller passed as [None] is left out of the
    payload, its default is not sent in its place; and a keyword argument
    that is none of the eight options never reaches the payload. *)
Theorem chat_request_payload (prompt model : string)
    (kwargs : gmap string value) :
  let payload := PerplexityRequest.to_dict (chat_request prompt model kwargs) in
  Py.dict_lookup "model" payload = Some (VStr model)
  ∧ Py.dict_lookup "messages" payload
    = Some (VList [VDict [("role", VStr "user"); ("content", VStr prompt)]])
  ∧ Py.dict_lookup "stream" payload = Some (VBool false)
  ∧ (∀ key dflt, (key, dflt) ∈ tuning_defaults →
       Py.dict_lookup key payload
       = match kwargs !! key with
         | Some v => if Py.is_none v then None else Some v
         | None => Some dflt
         end)
  ∧ (∀ key, is_Some (Py.dict_lookup key payload) →
       key ∈ ["model"; "messages"; "stream"] ∨ key ∈ tuning_defaults.*1).
Proof.
  intros payload. unfold payload. split_and!.
  - by rewrite to_dict_lookup.
  - by rewrite to_dict_lookup.
  - by rewrite to_dict_lookup.
  - intros key dflt Hin. rewrite to_dict_lookup. unfold tuning_defaults in Hin.
    repeat (apply elem_of_cons in Hin as [Heq|Hin];
      [injection Heq as -> ->; simpl;
       by destruct (kwargs !! _) as [v|]|]).
    by apply elem_of_nil in Hin.
  - intros key [v Hv]. rewrite to_dict_lookup in Hv.
    destruct (Py.dict_lookup key
                (PerplexityRequest.asdict (chat_request prompt model kwargs)))
      as [v'|] eqn:Hkey; [|done].
    clear Hv. simpl in Hkey.
    repeat (case_decide;
      [subst key;
       first [left; by apply (bool_decide_unpack _)
             |right; by apply (bool_decide_unpack _)]|]).
    done.
Qed.

(** X18.  [test_connection] is true exactly when the server answers the
    probe, a POST of [probe_payload] to [/chat/completions], with status
    200 and a JSON body that [_parse_response] parses; with any other
    status, a body that is not JSON or does not parse, a timeout or any
    other exception it is false, and it never raises. *)
Theorem test_connection_true_iff
    (session_post : string → list (string * value) → post_outcome)
    (base_url : string) :
  test_connection session_post base_url = true
  ↔ ∃ text response_data response,
      session_post (base_url +:+ "/chat/completions") probe_payload
      = Answer 200 text (Some response_data)
      ∧ _parse_response response_data = Ok response.
Proof.
  unfold test_connection, send_chat_request, send_request.
  change (PerplexityRequest.to_dict _) with probe_payload.
  rewrite bool_decide_eq_true.
  destruct (session_post _ _) as [status_code text [response_data|]| | |].
  - case_decide as Hstatus.
    + subst status_code.
      destruct (_parse_response response_data) as [parsed|e] eqn:Hparse.
      * split; [|done]. intros _. by exists text, response_data, parsed.
      * split; [done|]. intros (? & ? & ? & [= <- <-] & Hparse'). congruence.
    + split; [done|]. by intros (? & ? & ? & [= ? ? ?] & _).
  - case_decide; (split; [done|by intros (? & ? & ? & ? & ?)]).
  - split; [done|by intros (? & ? & ? & ? & ?)].
  - split; [done|by intros (? & ? & ? & ? & ?)].
  - split; [done|by intros (? & ? & ? & ? & ?)].
Qed.

End client.

(** ** The API key and the base URL *)

Section configuration.
Import PerplexityService.

(** X19.  Where the secrets have a [perplexity] section, the API key is
    that section's [api_key] and nothing else is consulted: the
    environment variable and the config file make no difference, and a
    section without [api_key] gives the empty key, not the key of the
    environment or of the config file. *)
Theorem api_key_from_secrets (env : Environment)
    (sections : gmap string value) (section : value) :
  has_secrets env = true →
  secrets env = Some sections →
  sections !! "perplexity" = Some section →
  _get_api_key env
  = match section with
    | VDict kvs => default (VStr "") (Py.dict_lookup "api_key" kvs)
    | _ => VStr ""
    end
  ∧ ∀ getenv' config_json',
      _get_api_key (mkEnvironment true (Some sections) getenv' config_json')
      = _get_api_key env.
Proof.
  intros Hhas Hsecrets Hsection.
  assert (∀ getenv' config_json',
    _get_api_key (mkEnvironment true (Some sections) getenv' config_json')
    = match section with
      | VDict kvs => default (VStr "") (Py.dict_lookup "api_key" kvs)
      | _ => VStr ""
      end) as Hkey.
  { intros getenv' config_json'. unfold _get_api_key, secrets_section. simpl.
    rewrite Hsection. simpl.
    destruct section as [| | | | | |kvs]; simpl; try done.
    by destruct (Py.dict_lookup "api_key" kvs). }
  destruct env as [has sec env_get config]. simpl in Hhas, Hsecrets.
  subst has sec. split; [apply Hkey|].
  intros getenv' config_json'. by rewrite !Hkey.
Qed.

Lemma api_key_from_secrets_witness :
  let env :=
    mkEnvironment true
      (Some {["perplexity" := VDict [("base_url", VStr "https://proxy")]]})
      (λ _, Some "pplx-from-environment")
      (Some (Some (VDict [("api_key", VStr "pplx-from-config")]))) in
  _get_api_key env = VStr "".
Proof.
  intros env.
  exact (proj1 (api_key_from_secrets env
                  {["perplexity" := VDict [("base_url", VStr "https://proxy")]]}
                  (VDict [("base_url", VStr "https://proxy")])
                  eq_refl eq_refl eq_refl)).
Defined.

(** X20.  Where the secrets can be read and have no [perplexity] section,
    or there are no secrets at all, a [PERPLEXITY_API_KEY] of the
    environment that is not empty is the key, whatever the config file
    holds; with the variable unset or empty the key is the [api_key] of
    [data/config.json], and the empty string where the file is missing,
    is not JSON, is no dict or has no [api_key]. *)
Theorem api_key_without_secrets_section (env : Environment) :
  secrets_section env "perplexity" = Some None →
  (∀ api_key, getenv env "PERPLEXITY_API_KEY" = Some api_key →
     api_key ≠ "" → _get_api_key env = VStr api_key)
  ∧ (getenv env "PERPLEXITY_API_KEY" = None
     ∨ getenv env "PERPLEXITY_API_KEY" = Some "" →
     _get_api_key env
     = match config_json env with
       | Some (Some (VDict kvs)) =>
           default (VStr "") (Py.dict_lookup "api_key" kvs)
       | _ => VStr ""
       end).
Proof.
  intros Hsection. unfold _get_api_key. rewrite Hsection. simpl. split.
  - intros api_key -> Hne. by rewrite bool_decide_eq_false_2.
  - assert (default (VStr "")
              match config_json env with
              | Some document =>
                  config ← document;
                  match Py.get config "api_key" (VStr "") with
                  | Ok api_key => Some api_key
                  | Raise _ => None
                  end
              | None => Some (VStr "")
              end
            = match config_json env with
              | Some (Some (VDict kvs)) =>
                  default (VStr "") (Py.dict_lookup "api_key" kvs)
              | _ => VStr ""
              end) as Hconfig.
    { destruct (config_json env) as [[config|]|]; simpl; try done.
      by destruct config. }
    intros [->| ->]; [done|]. by rewrite bool_decide_eq_true_2.
Qed.

Lemma api_key_without_secrets_section_witness :
  let env :=
    mkEnvironment false None (λ _, Some "")
      (Some (Some (VDict [("api_key", VStr "pplx-from-config")]))) in
  _get_api_key env = VStr "pplx-from-config".
Proof.
  intros env.
  exact (proj2 (api_key_without_secrets_section env eq_refl)
           (or_intror eq_refl)).
Defined.

(** X21.  Where reading the secrets raises, the lookup stops there: the
    API key is the empty string although the environment variable or the
    config file may hold a key, and the base URL is the default one. *)
Theorem secrets_unreadable (env : Environment) :
  has_secrets env = true →
  secrets env = None →
  _get_api_key env = VStr ""
  ∧ _get_base_url env = VStr "https://api.perplexity.ai".
Proof.
  intros Hhas Hsecrets.
  unfold _get_api_key, _get_base_url, secrets_section.
  by rewrite Hhas, Hsecrets.
Qed.

Lemma secrets_unreadable_witness :
  let env :=
    mkEnvironment true None (λ _, Some "pplx-from-environment")
      (Some (Some (VDict [("api_key", VStr "pplx-from-config")]))) in
  getenv env "PERPLEXITY_API_KEY" = Some "pplx-from-environment"
  ∧ _get_api_key env = VStr "".
Proof.
  intros env. split; [reflexivity|].
  exact (proj1 (secrets_unreadable env eq_refl eq_refl)).
Defined.


End configuration.

(** ** The credentials *)

Section credentials.

Variable sha256_hexdigest : string → string.
Variable dump : value → string.
Variable load : string → option value.

Lemma eq_str_true (s : string) (v : value) :
  Py.eq_str s v = true ↔ v = VStr s.
Proof.
  destruct v; simpl; try (split; [done|by intros [=]]).
  rewrite bool_decide_eq_true. naive_solver.
Qed.

Lemma eq_str_lookup (s key : string) (kvs : list (string * value)) :
  Py.eq_str s (default VNone (Py.dict_lookup key kvs)) = true
  ↔ Py.dict_lookup key kvs = Some (VStr s).
Proof.
  rewrite eq_str_true.
  destruct (Py.dict_lookup key kvs); simpl; naive_solver.
Qed.

(** X23.  With no [auth] section in the secrets and a credentials file
    that is missing or does not hold JSON, [verify_credentials] accepts
    admin / admin123, whatever the hash function, and leaves the default
    credentials in the file, over the text that was there. *)
Theorem default_credentials_fallback (has_secrets : bool)
    (secrets : option (gmap string value)) (files : gmap string string) :
  has_secrets = false
  ∨ (∃ sections, secrets = Some sections ∧ sections !! "auth" = None) →
  files !! auth.credentials_file ≫= load = None →
  auth.verify_credentials sha256_hexdigest dump load has_secrets secrets
    "admin" "admin123" files
  = (Ok true,
     <[auth.credentials_file := dump (default_credentials sha256_hexdigest)]>
       files).
Proof.
  intros Hsection Hfile.
  assert ((if has_secrets
           then sections ← secrets; Some (sections !! "auth")
           else Some None) = Some None) as Hnone.
  { destruct Hsection as [->|(sections & -> & Hauth)]; [done|].
    destruct has_secrets; simpl; by rewrite ?Hauth. }
  unfold auth.verify_credentials, auth.load_user_credentials.
  rewrite Hnone.
  destruct (files !! auth.credentials_file) as [text|]; simpl in Hfile.
  - rewrite Hfile. simpl. unfold auth.hash_password.
    by rewrite !bool_decide_eq_true_2.
  - simpl. unfold auth.hash_password. by rewrite !bool_decide_eq_true_2.
Qed.

(** X24.  Where the secrets are there and reading them raises, or their
    [auth] section lacks [username] or [password_hash], the credentials
    file is not consulted: it is overwritten with the default
    credentials, valid or not as it was, and admin / admin123 is
    accepted. *)
Theorem broken_secrets_reset_credentials
    (secrets : option (gmap string value)) (files : gmap string string) :
  secrets = None
  ∨ (∃ sections section,
       secrets = Some sections
       ∧ sections !! "auth" = Some section
       ∧ (Py.getattr section "username" = Raise Py.AttributeError
          ∨ Py.getattr section "password_hash" = Raise Py.AttributeError)) →
  auth.verify_credentials sha256_hexdigest dump load true secrets
    "admin" "admin123" files
  = (Ok true,
     <[auth.credentials_file := dump (default_credentials sha256_hexdigest)]>
       files).
Proof.
  intros Hbroken.
  assert (auth.load_user_credentials sha256_hexdigest dump load true secrets files
          = auth.create_default_credentials sha256_hexdigest dump files)
    as Hload.
  { unfold auth.load_user_credentials.
    destruct Hbroken as [->|(sections & section & -> & Hauth & Hattr)];
      [done|].
    simpl. rewrite Hauth.
    destruct Hattr as [Hattr|Hattr]; rewrite Hattr; [done|].
    by destruct (Py.getattr section "username"). }
  unfold auth.verify_credentials. rewrite Hload. simpl.
  unfold auth.hash_password. by rewrite !bool_decide_eq_true_2.
Qed.

(** X25.  With no [auth] section in the secrets and a credentials file
    that holds a JSON document, [verify_credentials] changes no file.
    Where the document is a dict, the answer is true exactly when the
    username is the stored [username] and the hash of the password is the
    stored [password], a missing entry matching nothing; where it is no
    dict, the call raises [AttributeError]. *)
Theorem verify_against_credentials_file (has_secrets : bool)
    (secrets : option (gmap string value)) (files : gmap string string)
    (text : string) (creds : value) (username password : string) :
  has_secrets = false
  ∨ (∃ sections, secrets = Some sections ∧ sections !! "auth" = None) →
  files !! auth.credentials_file = Some text →
  load text = Some creds →
  let verified :=
    auth.verify_credentials sha256_hexdigest dump load has_secrets secrets
      username password files in
  verified.2 = files
  ∧ match creds with
    | VDict kvs =>
        ∃ accepted : bool,
          verified.1 = Ok accepted
          ∧ (accepted = true
             ↔ Py.dict_lookup "username" kvs = Some (VStr username)
               ∧ Py.dict_lookup "password" kvs
                 = Some (VStr (sha256_hexdigest password)))
    | _ => verified.1 = Raise Py.AttributeError
    end.
Proof.
  intros Hsection Hfile Hload verified.
  assert ((if has_secrets
           then sections ← secrets; Some (sections !! "auth")
           else Some None) = Some None) as Hnone.
  { destruct Hsection as [->|(sections & -> & Hauth)]; [done|].
    destruct has_secrets; simpl; by rewrite ?Hauth. }
  unfold verified, auth.verify_credentials, auth.load_user_credentials.
  rewrite Hnone, Hfile, Hload. split; [done|].
  destruct creds as [| | | | | |kvs]; simpl; try done.
  unfold auth.hash_password.
  destruct (Py.eq_str username _) eqn:Husername; simpl.
  - eexists. split; [done|]. rewrite <- !eq_str_lookup, Husername. naive_solver.
  - exists false. split; [done|]. rewrite <- !eq_str_lookup, Husername.
    naive_solver.
Qed.

(** X26.  With an [auth] section in the secrets that has [username] and
    [password_hash], these are the credentials: the answer is true
    exactly when the username is that [username] and the hash of the
    password is that [password_hash], and the credentials file is
    neither read nor written. *)
Theorem verify_against_secrets (sections : gmap string value)
    (kvs : list (string * value)) (stored_username stored_hash : value)
    (files : gmap string string) (username password : string) :
  sections !! "auth" = Some (VDict kvs) →
  Py.dict_lookup "username" kvs = Some stored_username →
  Py.dict_lookup "password_hash" kvs = Some stored_hash →
  ∃ accepted : bool,
    auth.verify_credentials sha256_hexdigest dump load true (Some sections)
      username password files
    = (Ok accepted, files)
    ∧ (accepted = true
       ↔ stored_username = VStr username
         ∧ stored_hash = VStr (sha256_hexdigest password)).
Proof.
  intros Hauth Huser Hhash.
  unfold auth.verify_credentials, auth.load_user_credentials. simpl.
  rewrite Hauth. simpl. rewrite Huser, Hhash. simpl.
  unfold auth.hash_password.
  destruct (Py.eq_str username _) eqn:Husername; simpl.
  - eexists. split; [done|]. rewrite <- !eq_str_true, Husername. naive_solver.
  - exists false. split; [done|]. rewrite <- !eq_str_true, Husername.
    naive_solver.
Qed.

(** X27.  After [create_default_config] of the setup script, with no
    [auth] section in the secrets and a JSON library that reads back the
    credentials it wrote, a login is accepted exactly when the username
    is admin and the password hashes like admin123; admin / admin123 is
    accepted, and verifying changes no file. *)
Theorem login_after_setup (has_secrets : bool)
    (secrets : option (gmap string value)) (files : gmap string string)
    (username password : string) :
  has_secrets = false
  ∨ (∃ sections, secrets = Some sections ∧ sections !! "auth" = None) →
  load (dump (default_credentials sha256_hexdigest))
  = Some (default_credentials sha256_hexdigest) →
  let installed := setup.create_default_config sha256_hexdigest dump files in
  auth.verify_credentials sha256_hexdigest dump load has_secrets secrets
    username password installed
  = (Ok (bool_decide (username = "admin"
                      ∧ sha256_hexdigest password
                        = sha256_hexdigest "admin123")),
     installed)
  ∧ auth.verify_credentials sha256_hexdigest dump load has_secrets secrets
      "admin" "admin123" installed
    = (Ok true, installed).
Proof.
  intros Hsection Hcodec installed.
  assert ((if has_secrets
           then sections ← secrets; Some (sections !! "auth")
           else Some None) = Some None) as Hnone.
  { destruct Hsection as [->|(sections & -> & Hauth)]; [done|].
    destruct has_secrets; simpl; by rewrite ?Hauth. }
  assert (installed !! auth.credentials_file
          = Some (dump (default_credentials sha256_hexdigest))) as Hfile.
  { unfold installed, setup.create_default_config, auth.credentials_file.
    rewrite lookup_insert_ne by done. by rewrite lookup_insert_eq. }
  assert (∀ u p,
    auth.verify_credentials sha256_hexdigest dump load has_secrets secrets
      u p installed
    = (Ok (bool_decide (u = "admin"
                        ∧ sha256_hexdigest p = sha256_hexdigest "admin123")),
       installed)) as Hverify.
  { intros u p. unfold auth.verify_credentials, auth.load_user_credentials.
    rewrite Hnone, Hfile, Hcodec. simpl. f_equal. unfold auth.hash_password.
    case_bool_decide as Hu; simpl.
    - f_equal. apply bool_decide_ext. naive_solver.
    - rewrite bool_decide_eq_false_2; [done|]. naive_solver. }
  split; [apply Hverify|].
  rewrite Hverify. by rewrite bool_decide_eq_true_2.
Qed.

End credentials.

(** The witnesses use the reference codec and a hash function that
    prefixes its argument. *)
Lemma default_credentials_fallback_witness :
  let sha := String.append "sha256 of " in
  let files : gmap string string := {[ auth.credentials_file := "{not json" ]} in
  auth.verify_credentials sha JsonFile.dumps JsonFile.loads false None
    "admin" "admin123" files
  = (Ok true,
     <[auth.credentials_file :=
         JsonFile.dumps (VDict [ ("username", VStr "admin");
                                 ("password", VStr (sha "admin123")) ])]> files).
Proof.
  intros sha files.
  apply (default_credentials_fallback sha JsonFile.dumps JsonFile.loads
           false None files).
  - by left.
  - by vm_compute.
Defined.

Lemma broken_secrets_reset_credentials_witness :
  let sha := String.append "sha256 of " in
  let files : gmap string string :=
    {[ auth.credentials_file
       := JsonFile.dumps (VDict [ ("username", VStr "alice");
                                  ("password", VStr (sha "wonderland")) ]) ]} in
  let secrets : gmap string value :=
    {[ "auth" := VDict [("username", VStr "alice")] ]} in
  auth.verify_credentials sha JsonFile.dumps JsonFile.loads true (Some secrets)
    "admin" "admin123" files
  = (Ok true,
     <[auth.credentials_file :=
         JsonFile.dumps (VDict [ ("username", VStr "admin");
                                 ("password", VStr (sha "admin123")) ])]> files).
Proof.
  intros sha files secrets.
  apply (broken_secrets_reset_credentials sha JsonFile.dumps JsonFile.loads
           (Some secrets) files).
  right. exists secrets, (VDict [("username", VStr "alice")]).
  split_and!; [reflexivity|reflexivity|by right].
Defined.

Lemma verify_against_credentials_file_witness :
  let sha := String.append "sha256 of " in
  let creds :=
    VDict [ ("username", VStr "alice");
            ("password", VStr (sha "wonderland")) ] in
  let files : gmap string string :=
    {[ auth.credentials_file := JsonFile.dumps creds ]} in
  ∃ accepted : bool,
    (auth.verify_credentials sha JsonFile.dumps JsonFile.loads false None
       "alice" "wonderland" files).1
    = Ok accepted.
Proof.
  intros sha creds files.
  destruct (verify_against_credentials_file sha JsonFile.dumps JsonFile.loads
              false None files (JsonFile.dumps creds) creds
              "alice" "wonderland")
    as (_ & accepted & Haccepted & _).
  - by left.
  - reflexivity.
  - by vm_compute.
  - by exists accepted.
Defined.

Lemma verify_against_secrets_witness :
  let sha := String.append "sha256 of " in
  let kvs :=
    [ ("username", VStr "alice");
      ("password_hash", VStr (sha "wonderland")) ] in
  ∃ accepted : bool,
    auth.verify_credentials sha JsonFile.dumps JsonFile.loads true
      (Some {["auth" := VDict kvs]}) "alice" "admin123" ∅
    = (Ok accepted, ∅).
Proof.
  intros sha kvs.
  destruct (verify_against_secrets sha JsonFile.dumps JsonFile.loads
              {["auth" := VDict kvs]} kvs (VStr "alice")
              (VStr (sha "wonderland")) ∅ "alice" "admin123")
    as (accepted & Haccepted & _); [reflexivity..|].
  by exists accepted.
Defined.

Lemma login_after_setup_witness :
  let sha := String.append "sha256 of " in
  let installed := setup.create_default_config sha JsonFile.dumps ∅ in
  auth.verify_credentials sha JsonFile.dumps JsonFile.loads false None
    "admin" "admin123" installed
  = (Ok true, installed).
Proof.
  intros sha installed.
  apply (login_after_setup sha JsonFile.dumps JsonFile.loads false None ∅
           "admin" "admin123").
  - by left.
  - by vm_compute.
Defined.

(** ** The files of the data directory *)

Section init_files.
Import JsonFile.

Variable dump : value → string.

Lemma lookup_init_file (file_path : string) (data : value)
    (files : gmap string string) (path : string) :
  init_file dump file_path data files !! path
  = if decide (path = file_path)
    then Some (default (dump data) (files !! file_path))
    else files !! path.
Proof.
  unfold init_file, _save_json. case_bool_decide as Hexists.
  - case_decide as Hpath; [|done]. subst path.
    destruct Hexists as [text Htext]. by rewrite Htext.
  - case_decide as Hpath.
    + subst path. rewrite lookup_insert_eq.
      destruct (files !! file_path) as [text|] eqn:Htext; [|done].
      exfalso. apply Hexists. by exists text.
    + by rewrite lookup_insert_ne.
Qed.

Lemma init_file_exists (file_path : string) (data : value)
    (files : gmap string string) :
  is_Some (files !! file_path) → init_file dump file_path data files = files.
Proof. intros Hexists. unfold init_file. by rewrite bool_decide_eq_true_2. Qed.

Lemma lookup_init_files (default_prompts : value) (files : gmap string string)
    (path : string) :
  _init_files dump default_prompts files !! path
  = if decide (path = requests_file)
    then Some (default (dump (VList [])) (files !! requests_file))
    else if decide (path = prompts_file)
    then Some (default (dump default_prompts) (files !! prompts_file))
    else if decide (path = responses_file)
    then Some (default (dump (VList [])) (files !! responses_file))
    else if decide (path = config_file)
    then Some (default (dump default_config) (files !! config_file))
    else files !! path.
Proof.
  unfold _init_files. rewrite !lookup_init_file.
  unfold requests_file, prompts_file, responses_file, config_file.
  destruct (decide (path = "data/api_requests.json")) as [->|?];
    [by repeat first [rewrite decide_True by done|rewrite decide_False by done]|].
  destruct (decide (path = "data/saved_prompts.json")) as [->|?];
    [by repeat first [rewrite decide_True by done|rewrite decide_False by done]|].
  destruct (decide (path = "data/saved_responses.json")) as [->|?];
    [by repeat first [rewrite decide_True by done|rewrite decide_False by done]|].
  destruct (decide (path = "data/config.json")) as [->|?];
    by repeat first [rewrite decide_True by done|rewrite decide_False by done].
Qed.

Lemma init_files_exist (default_prompts : value) (files : gmap string string)
    (path : string) :
  path ∈ [requests_file; prompts_file; responses_file; config_file] →
  is_Some (_init_files dump default_prompts files !! path).
Proof.
  intros Hpath. rewrite lookup_init_files.
  repeat (case_decide; [by eexists|]).
  repeat (apply elem_of_cons in Hpath as [?|Hpath]; [done|]).
  by apply elem_of_nil in Hpath.
Qed.

(** X28.  [_init_files] creates what is missing and nothing else: a file
    that exists keeps its text, be it JSON or not; afterwards the four
    files of the data directory exist, one that was missing holding the
    empty list, the default prompts or the default config; no other file
    is touched. *)
Theorem init_files_creates_missing_only (default_prompts : value)
    (files : gmap string string) :
  let initialised := _init_files dump default_prompts files in
  let created (file_path : string) (data : value) : Prop :=
    initialised !! file_path
    = Some (default (dump data) (files !! file_path)) in
  (∀ path text, files !! path = Some text → initialised !! path = Some text)
  ∧ created requests_file (VList [])
  ∧ created prompts_file default_prompts
  ∧ created responses_file (VList [])
  ∧ created config_file default_config
  ∧ (∀ path,
       path ∉ [requests_file; prompts_file; responses_file; config_file] →
       initialised !! path = files !! path).
Proof.
  intros initialised created. unfold created, initialised. split_and!.
  - intros path text Htext. rewrite lookup_init_files.
    repeat (case_decide; [subst path; by rewrite Htext|]). done.
  - by rewrite lookup_init_files.
  - by rewrite lookup_init_files.
  - by rewrite lookup_init_files.
  - by rewrite lookup_init_files.
  - intros path Hpath. rewrite lookup_init_files.
    repeat (case_decide; [subst path; exfalso; apply Hpath;
                          by apply (bool_decide_unpack _)|]).
    done.
Qed.

(** X29.  [_init_files] run again changes nothing, also where the second
    run is given other default prompts, as it is with their fresh ids
    and dates: the prompts of the first run stay. *)
Theorem init_files_idempotent (default_prompts default_prompts' : value)
    (files : gmap string string) :
  _init_files dump default_prompts' (_init_files dump default_prompts files)
  = _init_files dump default_prompts files.
Proof.
  unfold _init_files at 1.
  rewrite (init_file_exists requests_file)
    by (apply init_files_exist; by apply (bool_decide_unpack _)).
  rewrite (init_file_exists prompts_file)
    by (apply init_files_exist; by apply (bool_decide_unpack _)).
  rewrite (init_file_exists responses_file)
    by (apply init_files_exist; by apply (bool_decide_unpack _)).
  apply init_file_exists, init_files_exist. by apply (bool_decide_unpack _).
Qed.

End init_files.
